(** * idigi_monitor_api.push_client: the Push session runtime

    A shallow embedding of [src/idigi_monitor_api/push_client.py]: the frame
    codec ([struct.pack] / [struct.unpack] with the format strings the module
    uses), the sockets the sessions own, [PushSession], [CallbackWorkerPool]
    and the reader side of [PushClient].  Python objects live in a store and
    are referred to by index, so that the session a worker acknowledges is the
    very object the reader filled.  Every method is a computation in a state
    and exception monad; the threads of the module are modelled by the body of
    their loops. *)

From Stdlib Require Import ZArith Lia Bool List.
From Stdlib.Strings Require Import Byte.
From stdpp Require Import base list.
Import ListNotations.

Local Open Scope Z_scope.

(** ** Exceptions and results *)

(** [errno] values the module looks at or that the sockets report. *)
Definition EBADF : Z := 9.
Definition EAGAIN : Z := 11.
Definition EMFILE : Z := 24.
Definition ECONNREFUSED : Z := 111.

(** The exception classes that can reach the module.  [SocketError] is
    [socket.error] (and [select.error]): [OSError] with its [errno];
    [SocketTimeout] and [SSLError] are its subclasses [socket.timeout] and
    [ssl.SSLError].  [PlainException] is [Exception("Socket already
    established ...")], [CallbackError] whatever a user callback raises. *)
Inductive exn : Type :=
| PushException
| SocketError (errno : Z)
| SocketTimeout
| SSLError
| StructError
| TypeError
| KeyError
| AttributeError
| ValueError
| RuntimeError
| ZlibError
| PlainException
| CallbackError.

(** What a call does: return, raise, never come back ([Blocked]: a blocking
    [Queue.put] on a full queue, a [Queue.get] on an empty one, a blocking
    [recv] without data), or [Fault] when the model is handed a reference to
    an object that was never allocated (no Python run does that). *)
Inductive result (A : Type) : Type :=
| Ok (a : A)
| Raise (e : exn)
| Blocked
| Fault.
Arguments Ok {A} a.
Arguments Raise {A} e.
Arguments Blocked {A}.
Arguments Fault {A}.

(** ** Bytes and [struct] *)

#[global] Instance byte_eq_decision : EqDecision byte := Byte.byte_eq_dec.

Definition Z_of_byte (b : byte) : Z := Z.of_N (Byte.to_N b).

Definition byte_of_Z (z : Z) : byte :=
  match Byte.of_N (Z.to_N (z mod 256)) with
  | Some b => b
  | None => x00
  end.

(** [data[a:b]] for [0 <= a <= b]. *)
Definition slice (a b : nat) (l : list byte) : list byte :=
  take (b - a) (drop a l).

(** The unsigned big-endian value of a byte string. *)
Definition be_value (bs : list byte) : Z :=
  fold_left (fun acc b => acc * 256 + Z_of_byte b) bs 0.

(** The [n] low-order bytes of [v], most significant first. *)
Fixpoint be_bytes (n : nat) (v : Z) : list byte :=
  match n with
  | O => []
  | S n' => be_bytes n' (v / 256) ++ [byte_of_Z v]
  end.

(** [struct.unpack('!H', bs)[0]] *)
Definition unpack_H (bs : list byte) : result Z :=
  if (length bs =? 2)%nat then Ok (be_value bs) else Raise StructError.

(** [struct.unpack('!B', bs)[0]] *)
Definition unpack_B (bs : list byte) : result Z :=
  if (length bs =? 1)%nat then Ok (be_value bs) else Raise StructError.

(** [struct.unpack('!i', bs)[0]]: a signed 32-bit integer. *)
Definition unpack_i (bs : list byte) : result Z :=
  if (length bs =? 4)%nat then
    let u := be_value bs in
    Ok (if u <? 2 ^ 31 then u else u - 2 ^ 32)
  else Raise StructError.

(** [struct.pack('!H', v)] *)
Definition pack_H (v : Z) : result (list byte) :=
  if (0 <=? v) && (v <? 2 ^ 16) then Ok (be_bytes 2 v) else Raise StructError.

(** [struct.pack('!L', v)] *)
Definition pack_L (v : Z) : result (list byte) :=
  if (0 <=? v) && (v <? 2 ^ 32) then Ok (be_bytes 4 v) else Raise StructError.

(** [struct.pack('!HL', t, n)] *)
Definition pack_HL (t n : Z) : result (list byte) :=
  match pack_H t, pack_L n with
  | Ok a, Ok b => Ok (a ++ b)
  | _, _ => Raise StructError
  end.

(** [struct.pack('!HHH', a, b, c)] *)
Definition pack_HHH (a b c : Z) : result (list byte) :=
  match pack_H a, pack_H b, pack_H c with
  | Ok x, Ok y, Ok z => Ok (x ++ y ++ z)
  | _, _, _ => Raise StructError
  end.

(** ** Module constants *)

Definition CONNECTION_REQUEST : Z := 0x01.
Definition CONNECTION_RESPONSE : Z := 0x02.
Definition PUBLISH_MESSAGE : Z := 0x03.
Definition PUBLISH_MESSAGE_RECEIVED : Z := 0x04.

Definition INCOMPLETE : Z := -1.
Definition NO_DATA : Z := -2.

Definition STATUS_OK : Z := 200.
Definition STATUS_UNAUTHORIZED : Z := 403.
Definition STATUS_BAD_REQUEST : Z := 400.

Definition PUSH_OPEN_PORT : Z := 3200.
Definition PUSH_SECURE_PORT : Z := 3201.

(** ** Sockets *)

(** [setblocking(1)], [settimeout(t)] with [t > 0], and [setblocking(0)] /
    [settimeout(0)]. *)
Inductive sock_mode : Type :=
| BlockingMode
| TimeoutMode (seconds : Z)
| NonBlockingMode.

(** What the next [recv] on a socket finds: bytes that arrived together, the
    peer's close, a TLS record that is not complete yet, or an error. *)
Inductive recv_event : Type :=
| Segment (bs : list byte)
| Eof
| SslWantRead
| RecvError (errno : Z).

(** What the network does to one connection: chosen by the environment. *)
Record conn_script : Type := {
  cs_fileno : Z;
  cs_wrap_ok : bool;
  cs_connect_ok : bool;
  cs_send_ok : bool;
  cs_inbox : list recv_event
}.

Record socket_obj : Type := {
  script : conn_script;
  wrapped : bool;
  is_closed : bool;
  mode : sock_mode;
  inbox : list recv_event;
  outbox : list (list byte)
}.

Definition fileno (so : socket_obj) : Z := cs_fileno (script so).

(** ** Sessions, queues and the state of the program *)

(** What a user callback does with a payload. *)
Inductive cb_result : Type :=
| Returns (truthy : bool)
| Throws.

(** [PushSession] and [SecurePushSession]: [secure] is [None] for the first
    and [Some ca_certs] for the second; [socket] refers to a socket object,
    [data] is a byte string or [None]. *)
Record PushSession : Type := {
  callback : list byte -> cb_result;
  monitor_id : Z;
  secure : option (option (list byte));
  socket : option nat;
  data : option (list byte);
  message_length : Z
}.

(** [queue.Queue(maxsize)] of the Python library. *)
Record Queue (A : Type) : Type := {
  maxsize : Z;
  items : list A
}.
Arguments maxsize {A} q.
Arguments items {A} q.

(** [CallbackWorkerPool]: whether [__write_queue] is the client's write queue
    or [None], the bounded [__queue] of (session, block id, payload), and
    [size]. *)
Record CallbackWorkerPool : Type := {
  pool_write_queue : bool;
  pool_queue : Queue (nat * Z * list byte);
  pool_size : Z
}.

Inductive log_record : Type :=
| LogWarnType (response_type : Z)
| LogSocketClosed (monitor : Z)
| LogException (e : exn).

(** The observable steps, in the order they are taken. *)
Inductive event : Type :=
| EvConnect (h : nat) (port : Z) (m : sock_mode)
| EvSetMode (h : nat) (m : sock_mode)
| EvSend (h : nat) (bs : list byte) (m : sock_mode)
| EvRecv (h : nat) (bufsize : Z) (m : sock_mode)
| EvClose (h : nat)
| EvCall (session : nat) (payload : list byte)
| EvReturn (session : nat) (r : cb_result)
| EvAck (sock : option nat) (bs : list byte)
| EvLog (r : log_record).

Record state : Type := {
  socks : list socket_obj;            (* every socket object created *)
  objs : list PushSession;            (* every session object created *)
  sessions : list (Z * nat);          (* PushClient.sessions, in insertion order *)
  pool : CallbackWorkerPool;          (* PushClient.__callback_pool *)
  write_queue : Queue (option nat * list byte); (* PushClient.__write_queue *)
  username : list byte;
  password : list byte;
  net : list (option conn_script);    (* the connections still to come *)
  trace : list event
}.

Definition set_socks (f : list socket_obj -> list socket_obj) (st : state) : state :=
  {| socks := f (socks st); objs := objs st; sessions := sessions st;
     pool := pool st; write_queue := write_queue st; username := username st;
     password := password st; net := net st; trace := trace st |}.

Definition set_objs (f : list PushSession -> list PushSession) (st : state) : state :=
  {| socks := socks st; objs := f (objs st); sessions := sessions st;
     pool := pool st; write_queue := write_queue st; username := username st;
     password := password st; net := net st; trace := trace st |}.

Definition set_sessions (f : list (Z * nat) -> list (Z * nat)) (st : state) : state :=
  {| socks := socks st; objs := objs st; sessions := f (sessions st);
     pool := pool st; write_queue := write_queue st; username := username st;
     password := password st; net := net st; trace := trace st |}.

Definition set_pool (p : CallbackWorkerPool) (st : state) : state :=
  {| socks := socks st; objs := objs st; sessions := sessions st;
     pool := p; write_queue := write_queue st; username := username st;
     password := password st; net := net st; trace := trace st |}.

Definition set_write_queue (q : Queue (option nat * list byte)) (st : state) : state :=
  {| socks := socks st; objs := objs st; sessions := sessions st;
     pool := pool st; write_queue := q; username := username st;
     password := password st; net := net st; trace := trace st |}.

Definition set_net (n : list (option conn_script)) (st : state) : state :=
  {| socks := socks st; objs := objs st; sessions := sessions st;
     pool := pool st; write_queue := write_queue st; username := username st;
     password := password st; net := n; trace := trace st |}.

Definition emit (e : event) (st : state) : state :=
  {| socks := socks st; objs := objs st; sessions := sessions st;
     pool := pool st; write_queue := write_queue st; username := username st;
     password := password st; net := net st; trace := trace st ++ [e] |}.

(** ** The monad *)

Definition M (A : Type) : Type := state -> result A * state.

Definition ret {A} (a : A) : M A := fun st => (Ok a, st).

Definition bind {A B} (m : M A) (k : A -> M B) : M B :=
  fun st =>
    match m st with
    | (Ok a, st') => k a st'
    | (Raise e, st') => (Raise e, st')
    | (Blocked, st') => (Blocked, st')
    | (Fault, st') => (Fault, st')
    end.

Definition raise {A} (e : exn) : M A := fun st => (Raise e, st).

(** A pure computation that may raise. *)
Definition lift {A} (r : result A) : M A := fun st => (r, st).

Definition gets {A} (f : state -> A) : M A := fun st => (Ok (f st), st).

Definition modify (f : state -> state) : M unit := fun st => (Ok tt, f st).

(** [try: m except ...: h]: [h e] is [None] when no clause matches [e]. *)
Definition try_except {A} (m : M A) (h : exn -> option (M A)) : M A :=
  fun st =>
    match m st with
    | (Raise e, st') =>
        match h e with
        | Some handler => handler st'
        | None => (Raise e, st')
        end
    | r => r
    end.

(** [try: m finally: fin]: [fin] runs when [m] returns or raises. *)
Definition try_finally {A} (m : M A) (fin : M unit) : M A :=
  fun st =>
    match m st with
    | (Blocked, st') => (Blocked, st')
    | (Fault, st') => (Fault, st')
    | (r, st') =>
        match fin st' with
        | (Ok _, st'') => (r, st'')
        | (Raise e, st'') => (Raise e, st'')
        | (Blocked, st'') => (Blocked, st'')
        | (Fault, st'') => (Fault, st'')
        end
    end.

Declare Scope py_scope.
Delimit Scope py_scope with py.
Notation "'let!' x ':=' m 'in' k" := (bind m (fun x => k))
  (at level 10, x name, m at level 100, k at level 200) : py_scope.
Notation "m ';;;' k" := (bind m (fun _ => k))
  (at level 100, k at level 200, right associativity) : py_scope.
Local Open Scope py_scope.

Definition when (b : bool) (m : M unit) : M unit := if b then m else ret tt.

(** [for x in l: body x] *)
Fixpoint for_each {A} (l : list A) (body : A -> M unit) : M unit :=
  match l with
  | [] => ret tt
  | x :: l' => body x ;;; for_each l' body
  end.

(** ** [queue.Queue] *)

Definition Queue_new {A} (maxsize : Z) : Queue A :=
  {| maxsize := maxsize; items := [] |}.

(** [Queue.full]: never, when [maxsize <= 0]. *)
Definition Queue_full {A} (q : Queue A) : bool :=
  (0 <? maxsize q) && (maxsize q <=? Z.of_nat (length (items q))).

(** [Queue.put(x)] with its default [block=True]: [None] when the caller has
    to wait. *)
Definition Queue_put {A} (x : A) (q : Queue A) : option (Queue A) :=
  if Queue_full q then None
  else Some {| maxsize := maxsize q; items := items q ++ [x] |}.

(** [Queue.get()] with its default [block=True]. *)
Definition Queue_get {A} (q : Queue A) : option (A * Queue A) :=
  match items q with
  | [] => None
  | x :: rest => Some (x, {| maxsize := maxsize q; items := rest |})
  end.

(** ** Socket operations *)

(** A method call on [self.socket]: [AttributeError] on [None]. *)
Definition deref (s : option nat) : M nat :=
  match s with
  | Some h => ret h
  | None => raise AttributeError
  end.

Definition get_sock (h : nat) : M socket_obj :=
  fun st => match socks st !! h with
            | Some so => (Ok so, st)
            | None => (Fault, st)
            end.

Definition put_sock (h : nat) (so : socket_obj) : M unit :=
  modify (set_socks (fun l => <[h := so]> l)).

Definition with_mode (m : sock_mode) (so : socket_obj) : socket_obj :=
  {| script := script so; wrapped := wrapped so; is_closed := is_closed so;
     mode := m; inbox := inbox so; outbox := outbox so |}.

Definition with_inbox (i : list recv_event) (so : socket_obj) : socket_obj :=
  {| script := script so; wrapped := wrapped so; is_closed := is_closed so;
     mode := mode so; inbox := i; outbox := outbox so |}.

Definition with_outbox (o : list (list byte)) (so : socket_obj) : socket_obj :=
  {| script := script so; wrapped := wrapped so; is_closed := is_closed so;
     mode := mode so; inbox := inbox so; outbox := o |}.

Definition with_closed (so : socket_obj) : socket_obj :=
  {| script := script so; wrapped := wrapped so; is_closed := true;
     mode := mode so; inbox := inbox so; outbox := outbox so |}.

Definition with_wrapped (so : socket_obj) : socket_obj :=
  {| script := script so; wrapped := true; is_closed := is_closed so;
     mode := mode so; inbox := inbox so; outbox := outbox so |}.

(** [socket.socket(AF_INET, SOCK_STREAM)]: a new object in blocking mode. *)
Definition socket_socket : M nat :=
  fun st =>
    match net st with
    | Some cs :: rest =>
        let so := {| script := cs; wrapped := false; is_closed := false;
                     mode := BlockingMode; inbox := cs_inbox cs; outbox := [] |} in
        (Ok (length (socks st)), set_net rest (set_socks (fun l => l ++ [so]) st))
    | None :: rest => (Raise (SocketError EMFILE), set_net rest st)
    | [] => (Raise (SocketError EMFILE), st)
    end.

(** [ssl.wrap_socket(sock, ...)]: the same descriptor, now speaking TLS. *)
Definition ssl_wrap_socket (h : nat) (ca_certs : option (list byte)) : M nat :=
  let! so := get_sock h in
  if cs_wrap_ok (script so) then put_sock h (with_wrapped so) ;;; ret h
  else raise SSLError.

Definition sock_connect (h : nat) (port : Z) : M unit :=
  let! so := get_sock h in
  modify (emit (EvConnect h port (mode so))) ;;;
  if is_closed so then raise (SocketError EBADF)
  else if cs_connect_ok (script so) then ret tt
  else raise (SocketError ECONNREFUSED).

(** [sock.setblocking(flag)] *)
Definition sock_setblocking (h : nat) (flag : bool) : M unit :=
  let! so := get_sock h in
  if is_closed so then raise (SocketError EBADF)
  else
    let m := if flag then BlockingMode else NonBlockingMode in
    modify (emit (EvSetMode h m)) ;;;
    put_sock h (with_mode m so).

(** [sock.settimeout(t)]: [0] is non-blocking. *)
Definition sock_settimeout (h : nat) (t : Z) : M unit :=
  let! so := get_sock h in
  if t <? 0 then raise ValueError
  else if is_closed so then raise (SocketError EBADF)
  else
    let m := if t =? 0 then NonBlockingMode else TimeoutMode t in
    modify (emit (EvSetMode h m)) ;;;
    put_sock h (with_mode m so).

Definition sock_send (h : nat) (bs : list byte) : M unit :=
  let! so := get_sock h in
  modify (emit (EvSend h bs (mode so))) ;;;
  if is_closed so then raise (SocketError EBADF)
  else if cs_send_ok (script so) then put_sock h (with_outbox (outbox so ++ [bs]) so)
  else raise (SocketError 32).

(** [sock.recv(bufsize)] *)
Definition sock_recv (h : nat) (bufsize : Z) : M (list byte) :=
  let! so := get_sock h in
  modify (emit (EvRecv h bufsize (mode so))) ;;;
  if bufsize <? 0 then raise ValueError
  else if is_closed so then raise (SocketError EBADF)
  else
    match inbox so with
    | [] =>
        match mode so with
        | NonBlockingMode => raise (SocketError EAGAIN)
        | TimeoutMode _ => raise SocketTimeout
        | BlockingMode => fun st => (Blocked, st)
        end
    | Eof :: _ => ret []
    | SslWantRead :: rest => put_sock h (with_inbox rest so) ;;; raise SSLError
    | RecvError e :: rest => put_sock h (with_inbox rest so) ;;; raise (SocketError e)
    | Segment bs :: rest =>
        let n := Z.to_nat bufsize in
        let later := drop n bs in
        put_sock h (with_inbox (match later with
                                | [] => rest
                                | _ => Segment later :: rest
                                end) so) ;;;
        ret (take n bs)
    end.

Definition sock_close (h : nat) : M unit :=
  let! so := get_sock h in
  modify (emit (EvClose h)) ;;;
  put_sock h (with_closed so).

(** [sock.fileno()]: [-1] once closed. *)
Definition sock_fileno (h : nat) : M Z :=
  let! so := get_sock h in
  ret (if is_closed so then -1 else fileno so).

(** ** Session objects *)

Definition get_session (sid : nat) : M PushSession :=
  fun st => match objs st !! sid with
            | Some s => (Ok s, st)
            | None => (Fault, st)
            end.

Definition with_socket (h : option nat) (s : PushSession) : PushSession :=
  {| callback := callback s; monitor_id := monitor_id s; secure := secure s;
     socket := h; data := data s; message_length := message_length s |}.

Definition with_data (d : option (list byte)) (s : PushSession) : PushSession :=
  {| callback := callback s; monitor_id := monitor_id s; secure := secure s;
     socket := socket s; data := d; message_length := message_length s |}.

Definition with_message_length (n : Z) (s : PushSession) : PushSession :=
  {| callback := callback s; monitor_id := monitor_id s; secure := secure s;
     socket := socket s; data := data s; message_length := n |}.

Definition update_session (sid : nat) (f : PushSession -> PushSession) : M unit :=
  let! s := get_session sid in
  modify (set_objs (fun l => <[sid := f s]> l)).

(** [len(x)] and [x[a:b]] on a value that is a byte string or [None]. *)
Definition py_len (d : option (list byte)) : M Z :=
  match d with
  | Some l => ret (Z.of_nat (length l))
  | None => raise TypeError
  end.

Definition py_slice (a b : nat) (d : option (list byte)) : M (list byte) :=
  match d with
  | Some l => ret (slice a b l)
  | None => raise TypeError
  end.

(** [x[a:]] *)
Definition py_from (a : nat) (d : option (list byte)) : M (list byte) :=
  match d with
  | Some l => ret (drop a l)
  | None => raise TypeError
  end.

(** [session.data += more] *)
Definition data_iadd (sid : nat) (more : list byte) : M unit :=
  let! s := get_session sid in
  match data s with
  | Some l => update_session sid (with_data (Some (l ++ more)))
  | None => raise TypeError
  end.

(** ** The dictionary [PushClient.sessions] *)

Fixpoint dict_get (k : Z) (d : list (Z * nat)) : option nat :=
  match d with
  | [] => None
  | (k', v) :: d' => if k' =? k then Some v else dict_get k d'
  end.

Fixpoint dict_del (k : Z) (d : list (Z * nat)) : option (list (Z * nat)) :=
  match d with
  | [] => None
  | (k', v) :: d' =>
      if k' =? k then Some d'
      else match dict_del k d' with
           | Some r => Some ((k', v) :: r)
           | None => None
           end
  end.

Fixpoint dict_set (k : Z) (v : nat) (d : list (Z * nat)) : list (Z * nat) :=
  match d with
  | [] => [(k, v)]
  | (k', v') :: d' => if k' =? k then (k, v) :: d' else (k', v') :: dict_set k v d'
  end.

(** [self.sessions[k]], [del self.sessions[k]], [self.sessions[k] = v] *)
Definition sessions_getitem (k : Z) : M nat :=
  fun st => match dict_get k (sessions st) with
            | Some v => (Ok v, st)
            | None => (Raise KeyError, st)
            end.

Definition sessions_delitem (k : Z) : M unit :=
  fun st => match dict_del k (sessions st) with
            | Some d => (Ok tt, set_sessions (fun _ => d) st)
            | None => (Raise KeyError, st)
            end.

Definition sessions_setitem (k : Z) (v : nat) : M unit :=
  modify (set_sessions (dict_set k v)).

(** ** Module-level readers *)

(** [_read_msg_header(session)]: the response type, [NO_DATA] or
    [INCOMPLETE]. *)
Definition _read_msg_header (sid : nat) : M Z :=
  let! early :=
    try_except
      (let! s := get_session sid in
       let! h := deref (socket s) in
       let! n := py_len (data s) in
       let! got := sock_recv h (6 - n) in
       if (length got =? 0)%nat then ret (Some NO_DATA)
       else
         data_iadd sid got ;;;
         let! s := get_session sid in
         let! n := py_len (data s) in
         if n <? 6 then ret (Some INCOMPLETE) else ret None)
      (fun e => match e with
                | SSLError => Some (ret (Some INCOMPLETE))
                | _ => None
                end) in
  match early with
  | Some code => ret code
  | None =>
      let! s := get_session sid in
      let! len_field := py_slice 2 6 (data s) in
      let! n := lift (unpack_i len_field) in
      update_session sid (with_message_length n) ;;;
      let! s := get_session sid in
      let! type_field := py_slice 0 2 (data s) in
      let! response_type := lift (unpack_H type_field) in
      update_session sid (with_data (Some [])) ;;;
      ret response_type
  end.

(** [_read_msg(session)]: whether the body is complete. *)
Definition _read_msg (sid : nat) : M bool :=
  let! s := get_session sid in
  let! n := py_len (data s) in
  if n =? message_length s then ret true
  else
    let! early :=
      try_except
        (let! s := get_session sid in
         let! h := deref (socket s) in
         let! n := py_len (data s) in
         let! got := sock_recv h (message_length s - n) in
         if (length got =? 0)%nat then raise PushException
         else data_iadd sid got ;;; ret None)
        (fun e => match e with
                  | SSLError => Some (ret (Some false))
                  | _ => None
                  end) in
    match early with
    | Some b => ret b
    | None =>
        let! s := get_session sid in
        let! n := py_len (data s) in
        ret (n =? message_length s)
    end.

(** ** [class PushSession] *)

Module PushSession.

(** [__init__(self, callback, monitor_id, client)]: a new session object,
    its reference.  [secure] is [None] here and the certificates of a
    [SecurePushSession] otherwise. *)
Definition __init__ (callback : list byte -> cb_result) (monitor_id : Z)
    (secure : option (option (list byte))) : M nat :=
  fun st =>
    let s := {| callback := callback; monitor_id := monitor_id; secure := secure;
                socket := None; data := Some []; message_length := 0 |} in
    (Ok (length (objs st)), set_objs (fun l => l ++ [s]) st).

(** The frame that [send_connection_request] builds: the payload with the
    protocol version, the credentials and the monitor id, after its header. *)
Definition connection_request (user pass : list byte) (monitor : Z) :
    result (list byte) :=
  match pack_H 0x01,
        pack_H (Z.of_nat (length user)),
        pack_H (Z.of_nat (length pass)),
        pack_L monitor with
  | Ok version, Ok ulen, Ok plen, Ok mon =>
      let payload := version ++ ulen ++ user ++ plen ++ pass ++ mon in
      match pack_HL CONNECTION_REQUEST (Z.of_nat (length payload)) with
      | Ok header => Ok (header ++ payload)
      | _ => Raise StructError
      end
  | _, _, _, _ => Raise StructError
  end.

(** [send_connection_request(self)] *)
Definition send_connection_request (self : nat) : M unit :=
  try_except
    (let! s := get_session self in
     let! user := gets username in
     let! pass := gets password in
     let! data := lift (connection_request user pass (monitor_id s)) in
     let! h := deref (socket s) in
     sock_send h data ;;;
     sock_settimeout h 60 ;;;
     let! response := sock_recv h 10 in
     sock_settimeout h 0 ;;;
     if negb (length response =? 10)%nat then raise PushException
     else
       let! response_type := lift (unpack_H (slice 0 2 response)) in
       if negb (response_type =? CONNECTION_RESPONSE) then raise PushException
       else
         let! status_code := lift (unpack_H (slice 6 8 response)) in
         if negb (status_code =? STATUS_OK) then raise PushException
         else ret tt)
    (fun exception =>
       Some (let! s := get_session self in
             let! h := deref (socket s) in
             sock_close h ;;;
             update_session self (with_socket None) ;;;
             raise exception)).

(** [start(self)] *)
Definition start (self : nat) : M unit :=
  let! s := get_session self in
  if bool_decide (socket s <> None) then raise PlainException
  else
    try_except
      (let! h := socket_socket in
       update_session self (with_socket (Some h)) ;;;
       sock_connect h PUSH_OPEN_PORT ;;;
       sock_setblocking h false)
      (fun exception =>
         Some (let! s := get_session self in
               let! h := deref (socket s) in
               sock_close h ;;;
               update_session self (with_socket None) ;;;
               raise exception)) ;;;
    send_connection_request self.

(** [stop(self)] *)
Definition stop (self : nat) : M unit :=
  let! s := get_session self in
  match socket s with
  | Some h =>
      sock_close h ;;;
      update_session self (with_socket None) ;;;
      update_session self (with_data None)
  | None => ret tt
  end.

End PushSession.

(** ** [class SecurePushSession(PushSession)] *)

Module SecurePushSession.

(** The path of [idigi.crt] next to the module, and the string [nonprod]. *)
Definition IDIGI_CRT : list byte :=
  [x69; x64; x69; x67; x69; x2e; x63; x72; x74].
Definition nonprod : list byte := [x6e; x6f; x6e; x70; x72; x6f; x64].

(** [__init__(self, callback, monitor_id, client, ca_certs=None)] *)
Definition __init__ (callback : list byte -> cb_result) (monitor_id : Z)
    (ca_certs : option (list byte)) : M nat :=
  let defaultCerts :=
    match ca_certs with
    | Some c => if bool_decide (c = nonprod) then None else Some c
    | None => Some IDIGI_CRT
    end in
  PushSession.__init__ callback monitor_id (Some defaultCerts).

(** [start(self)] *)
Definition start (self : nat) : M unit :=
  let! s := get_session self in
  if bool_decide (socket s <> None) then raise PlainException
  else
    try_except
      (let! h := socket_socket in
       update_session self (with_socket (Some h)) ;;;
       let! h' := ssl_wrap_socket h (match secure s with
                                     | Some ca => ca
                                     | None => None
                                     end) in
       update_session self (with_socket (Some h')) ;;;
       sock_connect h' PUSH_SECURE_PORT ;;;
       sock_setblocking h' false)
      (fun exception =>
         Some (let! s := get_session self in
               let! h := deref (socket s) in
               sock_close h ;;;
               update_session self (with_socket None) ;;;
               raise exception)) ;;;
    PushSession.send_connection_request self.

End SecurePushSession.

(** [session.start()], by the class of the object. *)
Definition session_start (sid : nat) : M unit :=
  let! s := get_session sid in
  match secure s with
  | None => PushSession.start sid
  | Some _ => SecurePushSession.start sid
  end.

(** ** [class CallbackWorkerPool] *)

Module CallbackWorkerPool.

(** [__init__(self, write_queue=None, size=1)]: the pool object.  One
    worker thread is started per element of [range(size)]. *)
Definition __init__ (write_queue : bool) (size : Z) : CallbackWorkerPool :=
  {| pool_write_queue := write_queue;
     pool_queue := Queue_new size;
     pool_size := size |}.

Definition workers (p : CallbackWorkerPool) : nat := Z.to_nat (pool_size p).

(** [queue_callback(self, session, block_id, data)] *)
Definition queue_callback (session : nat) (block_id : Z) (data : list byte) : M unit :=
  fun st =>
    let p := pool st in
    match Queue_put (session, block_id, data) (pool_queue p) with
    | Some q => (Ok tt, set_pool {| pool_write_queue := pool_write_queue p;
                                    pool_queue := q;
                                    pool_size := pool_size p |} st)
    | None => (Blocked, st)
    end.

(** [self.__queue.get()] *)
Definition queue_get : M (nat * Z * list byte) :=
  fun st =>
    let p := pool st in
    match Queue_get (pool_queue p) with
    | Some (item, q) => (Ok item, set_pool {| pool_write_queue := pool_write_queue p;
                                              pool_queue := q;
                                              pool_size := pool_size p |} st)
    | None => (Blocked, st)
    end.

(** [self.__write_queue.put(item)] *)
Definition write_queue_put (item : option nat * list byte) : M unit :=
  fun st =>
    match Queue_put item (write_queue st) with
    | Some q => (Ok tt, emit (EvAck (fst item) (snd item)) (set_write_queue q st))
    | None => (Blocked, st)
    end.

(** [session.callback(data)] *)
Definition call_callback (session : nat) (data : list byte) : M bool :=
  let! s := get_session session in
  modify (emit (EvCall session data)) ;;;
  let r := callback s data in
  modify (emit (EvReturn session r)) ;;;
  match r with
  | Returns truthy => ret truthy
  | Throws => raise CallbackError
  end.

(** [struct.pack('!HHH', PUBLISH_MESSAGE_RECEIVED, block_id, 200)] *)
Definition response_message (block_id : Z) : result (list byte) :=
  pack_HHH PUBLISH_MESSAGE_RECEIVED block_id 200.

(** One turn of the [while True] of [__consume_queue(self)]. *)
Definition __consume_queue : M unit :=
  let! item := queue_get in
  let '(session, block_id, data) := item in
  try_except
    (let! ok := call_callback session data in
     when ok
       (let! has_queue := gets (fun st => pool_write_queue (pool st)) in
        when has_queue
          (let! message := lift (response_message block_id) in
           let! s := get_session session in
           write_queue_put (socket s, message))))
    (fun exception => Some (modify (emit (EvLog (LogException exception))))).

End CallbackWorkerPool.

(** ** [class PushClient] *)

Module PushClient.

(** [__init__(self, username, password, ..., workers=1)]: no socket, no
    session, an unbounded write queue and the callback pool on top of it.
    [net] is what the network will do to the connections to come. *)
Definition __init__ (username password : list byte) (workers : Z)
    (net : list (option conn_script)) : state :=
  {| socks := []; objs := []; sessions := [];
     pool := CallbackWorkerPool.__init__ true workers;
     write_queue := Queue_new 0;
     username := username; password := password;
     net := net; trace := [] |}.

(** [__restart_session(self, session)] *)
Definition __restart_session (session : nat) : M unit :=
  let! s := get_session session in
  match socket s with
  | Some h =>
      let! fd := sock_fileno h in
      sessions_delitem fd ;;;
      PushSession.stop session ;;;
      session_start session ;;;
      let! s := get_session session in
      let! h' := deref (socket s) in
      let! fd' := sock_fileno h' in
      sessions_setitem fd' session
  | None => ret tt
  end.

(** [for sck in self.sessions.keys(): body], on the live dictionary: every
    step of the iterator first compares the size of the dictionary with
    the size it had when the loop began and raises [RuntimeError] when they
    differ. *)
Fixpoint for_keys (used : nat) (keys : list Z) (body : Z -> M unit) : M unit :=
  let! size_now := gets (fun st => length (sessions st)) in
  if negb (size_now =? used)%nat then raise RuntimeError
  else
    match keys with
    | [] => ret tt
    | sck :: keys' => body sck ;;; for_keys used keys' body
    end.

(** [__clean_dead_sessions(self)] *)
Definition __clean_dead_sessions : M unit :=
  let! d := gets sessions in
  for_keys (length d) (map fst d)
    (fun sck =>
       let! session := sessions_getitem sck in
       let! s := get_session session in
       when (bool_decide (socket s = None)) (sessions_delitem sck)).

(** What [__select] does for one [sock] of [inputready]: the body of its
    [for] loop.  [zlib_decompress] is [zlib.decompress], [None] where it
    raises [zlib.error]. *)
Definition select_body (zlib_decompress : list byte -> option (list byte))
    (sock : Z) : M unit :=
  let! session := sessions_getitem sock in
  let! s := get_session session in
  match socket s with
  | None => ret tt
  | Some sck =>
      let! proceed :=
        (if message_length s =? 0 then
           let! response_type := _read_msg_header session in
           if response_type =? NO_DATA then
             let! s := get_session session in
             when (bool_decide (socket s <> None))
               (modify (emit (EvLog (LogSocketClosed (monitor_id s)))) ;;;
                __restart_session session) ;;;
             ret false
           else if response_type =? INCOMPLETE then ret false
           else if negb (response_type =? PUBLISH_MESSAGE) then
             modify (emit (EvLog (LogWarnType response_type))) ;;;
             ret false
           else ret true
         else ret true) in
      if negb proceed then ret tt
      else
        let! complete :=
          try_except (_read_msg session)
            (fun err =>
               match err with
               | PushException =>
                   Some (update_session session (with_data (Some [])) ;;;
                         update_session session (with_message_length 0) ;;;
                         let! s := get_session session in
                         match socket s with
                         | None =>
                             (* [del self.sessions[sck]]: the keys are file
                                numbers, [sck] is a socket object *)
                             raise KeyError
                         | Some _ =>
                             modify (emit (EvLog (LogException err))) ;;;
                             __restart_session session
                         end ;;;
                         ret false)
               | _ => None
               end) in
        if negb complete then ret tt
        else
          let! s := get_session session in
          let data := data s in
          update_session session (with_data (Some [])) ;;;
          update_session session (with_message_length 0) ;;;
          let! id_field := py_slice 0 2 data in
          let! block_id := lift (unpack_H id_field) in
          let! comp_field := py_slice 4 5 data in
          let! compression := lift (unpack_B comp_field) in
          let! payload := py_from 10 data in
          let! payload :=
            (if compression =? 0x01 then
               match zlib_decompress payload with
               | Some inflated => ret inflated
               | None => raise ZlibError
               end
             else ret payload) in
          CallbackWorkerPool.queue_callback session block_id payload
  end.

(** One turn of the [while not self.closed] of [__select(self)], for the
    [inputready] that [select.select] returned. *)
Definition select_pass (zlib_decompress : list byte -> option (list byte))
    (inputready : list Z) : M unit :=
  try_except
    (for_each inputready (select_body zlib_decompress))
    (fun err =>
       match err with
       | SocketError errno =>
           Some (when (errno =? EBADF) __clean_dead_sessions)
       | SocketTimeout | SSLError => Some (ret tt)
       | _ => Some (modify (emit (EvLog (LogException err))))
       end).

(** Successive turns of the loop. *)
Fixpoint select_rounds (zlib_decompress : list byte -> option (list byte))
    (rounds : list (list Z)) : M unit :=
  match rounds with
  | [] => ret tt
  | inputready :: rounds' =>
      select_pass zlib_decompress inputready ;;;
      select_rounds zlib_decompress rounds'
  end.

(** [__select(self)]: the turns of the loop while [self.closed] is false,
    one per element of [rounds], and the [finally] that stops every session
    of the dictionary. *)
Definition __select (zlib_decompress : list byte -> option (list byte))
    (rounds : list (list Z)) : M unit :=
  try_finally
    (select_rounds zlib_decompress rounds)
    (let! d := gets sessions in
     for_each (map snd d) PushSession.stop).

(** [self.__write_queue.get(timeout=0.1)]: [None] when it raises
    [queue.Empty]. *)
Definition write_queue_get : M (option (option nat * list byte)) :=
  fun st =>
    match Queue_get (write_queue st) with
    | Some (item, q) => (Ok (Some item), set_write_queue q st)
    | None => (Ok None, st)
    end.

(** One turn of the [while not self.closed] of [__writer(self)]. *)
Definition writer_turn : M unit :=
  try_except
    (let! item := write_queue_get in
     match item with
     | None => ret tt
     | Some (sock, data) =>
         let! h := deref sock in
         sock_send h data
     end)
    (fun err =>
       match err with
       | SocketError errno => Some (when (errno =? EBADF) __clean_dead_sessions)
       | SocketTimeout | SSLError => Some (ret tt)
       | _ => None
       end).

(** [__writer(self)], for the number of turns taken before [self.closed]
    is set. *)
Fixpoint __writer (turns : nat) : M unit :=
  match turns with
  | O => ret tt
  | S turns' => writer_turn ;;; __writer turns'
  end.

(** [create_session(self, callback, monitor_id)], without the start of the
    threads; [secure] and [ca_certs] are the client's. *)
Definition create_session (secure : bool) (ca_certs : option (list byte))
    (callback : list byte -> cb_result) (monitor_id : Z) : M nat :=
  let! session :=
    (if secure then SecurePushSession.__init__ callback monitor_id ca_certs
     else PushSession.__init__ callback monitor_id None) in
  session_start session ;;;
  let! s := get_session session in
  let! h := deref (socket s) in
  let! fd := sock_fileno h in
  sessions_setitem fd session ;;;
  ret session.

End PushClient.

(** ** A client with one session

    The states the examples below start from: a client created by
    [PushClient.__init__] with one worker, and one plain session created by
    [create_session] over a connection with file number 5 on which the
    server answers the handshake and then sends [later]. *)

Definition handshake_ok : list byte :=
  [x00; x02; x00; x00; x00; x04; x00; xc8; x00; x00].

Definition connection (later : list recv_event) : conn_script :=
  {| cs_fileno := 5; cs_wrap_ok := true; cs_connect_ok := true;
     cs_send_ok := true; cs_inbox := Segment handshake_ok :: later |}.

Definition accept_all (payload : list byte) : cb_result := Returns true.

Definition connected (cb : list byte -> cb_result) (later : list recv_event) : state :=
  snd (PushClient.create_session false None cb 9001
         (PushClient.__init__ [x75] [x70] 1 [Some (connection later)])).

(** Two sessions on file numbers 5 and 6, both stopped by the application:
    their entries are still in [sessions]. *)
Definition connection6 : conn_script :=
  {| cs_fileno := 6; cs_wrap_ok := true; cs_connect_ok := true;
     cs_send_ok := true; cs_inbox := [Segment handshake_ok] |}.

Definition two_stopped : state :=
  snd ((PushClient.create_session false None accept_all 9001 ;;;
        PushClient.create_session false None accept_all 9002 ;;;
        PushSession.stop 0 ;;;
        PushSession.stop 1)
         (PushClient.__init__ [x75] [x70] 1 [Some (connection []); Some connection6])).

(** One session on file number 5 whose peer has closed, with one more
    connection (file number 6) available to a restart. *)
Definition reconnectable : state :=
  snd (PushClient.create_session false None accept_all 9001
         (PushClient.__init__ [x75] [x70] 1
            [Some (connection [Eof]); Some connection6])).

(** The one-session client after the header of a 12-byte publish message,
    with the body still to come in two segments of 4 and 8 bytes. *)
Definition body_pending : state :=
  snd (_read_msg_header 0
         (connected accept_all
            [Segment [x00; x03; x00; x00; x00; x0c];
             Segment [x00; x2a; x00; x00];
             Segment [x00; x00; x00; x00; x00; x00; x68; x69]])).

(** The steps of a handshake on socket [h] that nothing interrupts, with the
    mode of the socket at each of them: [connect], [setblocking(0)],
    [send(request)], [settimeout(60)], [recv(10)], [settimeout(0)]. *)
Definition handshake_steps (h : nat) (port : Z) (request : list byte) : list event :=
  [EvConnect h port BlockingMode;
   EvSetMode h NonBlockingMode;
   EvSend h request NonBlockingMode;
   EvSetMode h (TimeoutMode 60);
   EvRecv h 10 (TimeoutMode 60);
   EvSetMode h NonBlockingMode].

(** The port a session connects to, and the request it sends in state [st]
    (empty when the request cannot be packed). *)
Definition push_port (s : PushSession) : Z :=
  match secure s with
  | None => PUSH_OPEN_PORT
  | Some _ => PUSH_SECURE_PORT
  end.

Definition request_of (st : state) (s : PushSession) : list byte :=
  match PushSession.connection_request (username st) (password st) (monitor_id s) with
  | Ok bs => bs
  | _ => []
  end.

(** The bytes of [response_message B] for a 16-bit [B]. *)
Definition ack_message (B : Z) : list byte :=
  be_bytes 2 PUBLISH_MESSAGE_RECEIVED ++ be_bytes 2 B ++ be_bytes 2 200.

(** No decompression available: [zlib.decompress] always raises. *)
Definition no_zlib (compressed : list byte) : option (list byte) := None.

(** ** Outcomes

    [wp m st Q]: the outcome of [m] from [st] satisfies [Q]. *)
Definition wp {A} (m : M A) (st : state) (Q : result A -> state -> Prop) : Prop :=
  Q (fst (m st)) (snd (m st)).

(** [keeps f m]: whatever [m] does, it leaves the part [f] of the state as
    it found it. *)
Definition keeps {A B} (f : state -> B) (m : M A) : Prop :=
  forall st, f (snd (m st)) = f st.

(** * Properties *)

(** ** Running a computation step by step *)

Lemma wp_ret {A} (a : A) st Q : Q (Ok a) st -> wp (ret a) st Q.
Proof. exact id. Qed.

Lemma wp_raise {A} (e : exn) st (Q : result A -> state -> Prop) :
  Q (Raise e) st -> wp (raise e) st Q.
Proof. exact id. Qed.

Lemma wp_lift {A} (r : result A) st Q : Q r st -> wp (lift r) st Q.
Proof. exact id. Qed.

Lemma wp_gets {A} (f : state -> A) st Q : Q (Ok (f st)) st -> wp (gets f) st Q.
Proof. exact id. Qed.

Lemma wp_modify (f : state -> state) st Q : Q (Ok tt) (f st) -> wp (modify f) st Q.
Proof. exact id. Qed.

Lemma wp_bind {A B} (m : M A) (k : A -> M B) st Q :
  wp m st (fun r st' =>
             match r with
             | Ok a => wp (k a) st' Q
             | Raise e => Q (Raise e) st'
             | Blocked => Q Blocked st'
             | Fault => Q Fault st'
             end) ->
  wp (bind m k) st Q.
Proof.
  unfold wp, bind. destruct (m st) as [[a|e| |] st']; cbn; exact id.
Qed.

Lemma wp_try_except {A} (m : M A) (h : exn -> option (M A)) st Q :
  wp m st (fun r st' =>
             match r with
             | Raise e =>
                 match h e with
                 | Some handler => wp handler st' Q
                 | None => Q (Raise e) st'
                 end
             | _ => Q r st'
             end) ->
  wp (try_except m h) st Q.
Proof.
  unfold wp, try_except. destruct (m st) as [[a|e| |] st']; cbn; try exact id.
  destruct (h e); exact id.
Qed.

Lemma wp_get_session (sid : nat) (s : PushSession) st Q :
  objs st !! sid = Some s -> Q (Ok s) st -> wp (get_session sid) st Q.
Proof. unfold wp, get_session. intros ->. exact id. Qed.

Lemma wp_get_sock (h : nat) (so : socket_obj) st Q :
  socks st !! h = Some so -> Q (Ok so) st -> wp (get_sock h) st Q.
Proof. unfold wp, get_sock. intros ->. exact id. Qed.

Lemma wp_deref (s : option nat) st Q :
  match s with
  | Some h => Q (Ok h) st
  | None => Q (Raise AttributeError) st
  end -> wp (deref s) st Q.
Proof. destruct s; exact id. Qed.

Lemma wp_fun {A} (f : state -> result A * state) st Q :
  Q (fst (f st)) (snd (f st)) -> wp f st Q.
Proof. exact id. Qed.

Lemma lookup_snoc {A} (l : list A) (x : A) : (l ++ [x]) !! length l = Some x.
Proof. rewrite lookup_app_r by lia. rewrite Nat.sub_diag. reflexivity. Qed.

Lemma insert_snoc {A} (l : list A) (x y : A) : <[length l := y]> (l ++ [x]) = l ++ [y].
Proof. rewrite insert_app_r_alt by lia. rewrite Nat.sub_diag. reflexivity. Qed.

Lemma connection_request_cases (u p : list byte) (m : Z) :
  (exists bs, PushSession.connection_request u p m = Ok bs) \/
  PushSession.connection_request u p m = Raise StructError.
Proof.
  unfold PushSession.connection_request, pack_HL, pack_H, pack_L.
  repeat match goal with
         | |- context [if ?b then _ else _] => destruct b
         end; eauto.
Qed.

Lemma unpack_H_cases (bs : list byte) :
  (exists v, unpack_H bs = Ok v) \/ unpack_H bs = Raise StructError.
Proof. unfold unpack_H. destruct (length bs =? 2)%nat; eauto. Qed.

Lemma wp_socket_socket st Q :
  match net st with
  | Some cs :: rest =>
      Q (Ok (length (socks st)))
        (set_net rest
           (set_socks (fun l => l ++ [{| script := cs; wrapped := false;
                                         is_closed := false; mode := BlockingMode;
                                         inbox := cs_inbox cs; outbox := [] |}]) st))
  | None :: rest => Q (Raise (SocketError EMFILE)) (set_net rest st)
  | [] => Q (Raise (SocketError EMFILE)) st
  end -> wp socket_socket st Q.
Proof.
  unfold wp, socket_socket. destruct (net st) as [|[cs|] rest]; exact id.
Qed.

Lemma wp_sessions_delitem (k : Z) (d : list (Z * nat)) st Q :
  dict_del k (sessions st) = Some d ->
  Q (Ok tt) (set_sessions (fun _ => d) st) -> wp (sessions_delitem k) st Q.
Proof. unfold wp, sessions_delitem. intros ->. exact id. Qed.

Lemma wp_sessions_getitem (k : Z) (v : nat) st Q :
  dict_get k (sessions st) = Some v ->
  Q (Ok v) st -> wp (sessions_getitem k) st Q.
Proof. unfold wp, sessions_getitem. intros ->. exact id. Qed.

Ltac state_simpl :=
  cbv beta iota zeta;
  lazymatch goal with
  | |- wp ?m ?st ?Q =>
      let st' := eval cbv beta iota zeta delta
                   [socks objs sessions pool write_queue username password net trace
                    set_socks set_objs set_sessions set_pool set_write_queue set_net emit
                    socket data message_length callback monitor_id secure
                    with_socket with_data with_message_length
                    script wrapped is_closed mode inbox outbox
                    with_mode with_inbox with_outbox with_closed with_wrapped
                    fst snd] in st in
      change (wp m st' Q);
      cbn [socket data message_length callback monitor_id secure
           script wrapped is_closed mode inbox outbox fst snd]
  | |- _ =>
      cbv beta iota zeta delta
          [socks objs sessions pool write_queue username password net trace
           set_socks set_objs set_sessions set_pool set_write_queue set_net emit
           socket data message_length callback monitor_id secure
           with_socket with_data with_message_length
           script wrapped is_closed mode inbox outbox
           with_mode with_inbox with_outbox with_closed with_wrapped
           fst snd]
  end;
  change (60 =? 0) with false; change (0 =? 0) with true;
  change (60 <? 0) with false; change (0 <? 0) with false;
  change (10 <? 0) with false; change (Z.to_nat 10) with 10%nat;
  cbv beta iota zeta;
  rewrite ?insert_snoc, ?list_insert_insert_eq.

Ltac solve_lookup :=
  state_simpl;
  first [ eassumption
        | apply lookup_snoc
        | apply list_lookup_insert_eq; assumption ].

Ltac wp_step :=
  state_simpl;
  lazymatch goal with
  | |- wp (bind _ _) _ _ => apply wp_bind
  | |- wp (try_except _ _) _ _ => apply wp_try_except
  | |- wp (ret _) _ _ => apply wp_ret
  | |- wp (raise _) _ _ => apply wp_raise
  | |- wp (lift _) _ _ => apply wp_lift
  | |- wp (gets _) _ _ => apply wp_gets
  | |- wp (modify _) _ _ => apply wp_modify
  | |- wp (get_session _) _ _ => eapply wp_get_session; [solve_lookup|]
  | |- wp (get_sock _) _ _ => eapply wp_get_sock; [solve_lookup|]
  | |- wp (deref _) _ _ => apply wp_deref
  | |- wp (update_session _ _) _ _ => unfold update_session
  | |- wp (put_sock _ _) _ _ => unfold put_sock
  | |- wp (sock_connect _ _) _ _ => unfold sock_connect
  | |- wp (sock_setblocking _ _) _ _ => unfold sock_setblocking
  | |- wp (sock_settimeout _ _) _ _ => unfold sock_settimeout
  | |- wp (sock_send _ _) _ _ => unfold sock_send
  | |- wp (sock_recv _ _) _ _ => unfold sock_recv
  | |- wp (sock_close _) _ _ => unfold sock_close
  | |- wp (sock_fileno _) _ _ => unfold sock_fileno
  | |- wp (ssl_wrap_socket _ _) _ _ => unfold ssl_wrap_socket
  | |- wp (when _ _) _ _ => unfold when
  | |- wp (PushSession.send_connection_request _) _ _ =>
      unfold PushSession.send_connection_request
  | |- wp (PushSession.start _) _ _ => unfold PushSession.start
  | |- wp (SecurePushSession.start _) _ _ => unfold SecurePushSession.start
  | |- wp (PushSession.stop _) _ _ => unfold PushSession.stop
  | |- wp (session_start _) _ _ => unfold session_start
  | |- wp socket_socket _ _ => apply wp_socket_socket
  | |- wp (sessions_delitem _) _ _ =>
      eapply wp_sessions_delitem; [state_simpl; eassumption|]
  | |- wp (sessions_getitem _) _ _ =>
      eapply wp_sessions_getitem; [state_simpl; eassumption|]
  | |- wp (sessions_setitem _ _) _ _ => unfold sessions_setitem
  | |- wp (if bool_decide ?P then _ else _) _ _ =>
      first [ rewrite (bool_decide_eq_false_2 P) by congruence
            | rewrite (bool_decide_eq_true_2 P) by congruence
            | destruct (bool_decide P) eqn:? ]
  | |- wp (if negb ?b then _ else _) _ _ => destruct b eqn:?; cbn [negb]
  | |- wp (if ?b then _ else _) _ _ => destruct b eqn:?
  | |- wp (match ?x with _ => _ end) _ _ => destruct x eqn:?
  | |- wp (fun _ => _) _ _ => apply wp_fun
  | |- match PushSession.connection_request ?u ?p ?m with _ => _ end =>
      let bs := fresh "request" in
      let E := fresh "Hrequest" in
      destruct (connection_request_cases u p m) as [[bs E] | E]; rewrite E
  | |- match unpack_H ?b with _ => _ end =>
      let v := fresh "v" in
      let E := fresh "Hunpack" in
      destruct (unpack_H_cases b) as [[v E] | E]; rewrite E
  | |- match ?x with _ => _ end => destruct x eqn:?
  end.

(** ** The frame codec *)

Lemma Z_of_byte_range (b : byte) : 0 <= Z_of_byte b < 256.
Proof.
  unfold Z_of_byte. pose proof (Byte.to_N_bounded b) as Hb.
  split; [apply N2Z.is_nonneg | lia].
Qed.

Lemma be_value_2 (a b : byte) : be_value [a; b] = Z_of_byte a * 256 + Z_of_byte b.
Proof. unfold be_value; simpl; lia. Qed.

Lemma be_value_4 (a b c d : byte) :
  be_value [a; b; c; d] =
  Z_of_byte a * 2 ^ 24 + Z_of_byte b * 2 ^ 16 + Z_of_byte c * 2 ^ 8 + Z_of_byte d.
Proof. unfold be_value; simpl; lia. Qed.

(** The type field is read unsigned, the length field signed: with the high
    bit of the length set, the decoded length is the unsigned value minus
    [2^32]. *)
Lemma unpack_i_high_bit (a b c d : byte) :
  128 <= Z_of_byte a ->
  unpack_i [a; b; c; d] = Ok (be_value [a; b; c; d] - 2 ^ 32) /\
  be_value [a; b; c; d] - 2 ^ 32 < 0.
Proof.
  intros Ha. unfold unpack_i. cbn [length Nat.eqb].
  rewrite be_value_4.
  pose proof (Z_of_byte_range a). pose proof (Z_of_byte_range b).
  pose proof (Z_of_byte_range c). pose proof (Z_of_byte_range d).
  destruct (Z.ltb_spec (Z_of_byte a * 2 ^ 24 + Z_of_byte b * 2 ^ 16 +
                        Z_of_byte c * 2 ^ 8 + Z_of_byte d) (2 ^ 31)); [lia|].
  split; [reflexivity | lia].
Qed.

Lemma unpack_i_low (a b c d : byte) :
  Z_of_byte a < 128 ->
  unpack_i [a; b; c; d] = Ok (be_value [a; b; c; d]).
Proof.
  intros Ha. unfold unpack_i. cbn [length Nat.eqb].
  rewrite be_value_4.
  pose proof (Z_of_byte_range a). pose proof (Z_of_byte_range b).
  pose proof (Z_of_byte_range c). pose proof (Z_of_byte_range d).
  destruct (Z.ltb_spec (Z_of_byte a * 2 ^ 24 + Z_of_byte b * 2 ^ 16 +
                        Z_of_byte c * 2 ^ 8 + Z_of_byte d) (2 ^ 31)); [reflexivity | lia].
Qed.

(** ** The callback worker *)

Lemma pack_H_ok (v : Z) : 0 <= v < 2 ^ 16 -> pack_H v = Ok (be_bytes 2 v).
Proof.
  intros [H0 H1]. unfold pack_H.
  destruct (Z.leb_spec 0 v); [|lia].
  destruct (Z.ltb_spec v (2 ^ 16)); [reflexivity | lia].
Qed.

Lemma pack_HHH_ok (a b c : Z) :
  0 <= a < 2 ^ 16 -> 0 <= b < 2 ^ 16 -> 0 <= c < 2 ^ 16 ->
  pack_HHH a b c = Ok (be_bytes 2 a ++ be_bytes 2 b ++ be_bytes 2 c).
Proof.
  intros Ha Hb Hc. unfold pack_HHH.
  rewrite (pack_H_ok a Ha), (pack_H_ok b Hb), (pack_H_ok c Hc). reflexivity.
Qed.

Lemma Queue_put_unbounded {A} (x : A) (q : Queue A) :
  maxsize q <= 0 ->
  Queue_put x q = Some {| maxsize := maxsize q; items := items q ++ [x] |}.
Proof.
  intros Hm. unfold Queue_put, Queue_full.
  destruct (Z.ltb_spec 0 (maxsize q)); [lia | reflexivity].
Qed.

Lemma response_message_ok (B : Z) :
  0 <= B < 2 ^ 16 -> CallbackWorkerPool.response_message B = Ok (ack_message B).
Proof.
  intros HB. unfold CallbackWorkerPool.response_message.
  rewrite pack_HHH_ok by (unfold PUBLISH_MESSAGE_RECEIVED; lia). reflexivity.
Qed.

#[local] Arguments CallbackWorkerPool.response_message : simpl never.

(** What one turn of a worker does, by the outcome of the callback. *)
Lemma consume_queue_run (st : state) (sid : nat) (B : Z) (payload : list byte)
    (rest : list (nat * Z * list byte)) (s : PushSession) :
  items (pool_queue (pool st)) = (sid, B, payload) :: rest ->
  objs st !! sid = Some s ->
  pool_write_queue (pool st) = true ->
  maxsize (write_queue st) <= 0 ->
  0 <= B < 2 ^ 16 ->
  let st' := snd (CallbackWorkerPool.__consume_queue st) in
  fst (CallbackWorkerPool.__consume_queue st) = Ok tt /\
  items (pool_queue (pool st')) = rest /\
  match callback s payload with
  | Returns true =>
      items (write_queue st') = items (write_queue st) ++ [(socket s, ack_message B)] /\
      trace st' = trace st ++ [EvCall sid payload; EvReturn sid (Returns true);
                               EvAck (socket s) (ack_message B)]
  | Returns false =>
      write_queue st' = write_queue st /\
      trace st' = trace st ++ [EvCall sid payload; EvReturn sid (Returns false)]
  | Throws =>
      write_queue st' = write_queue st /\
      trace st' = trace st ++ [EvCall sid payload; EvReturn sid Throws;
                               EvLog (LogException CallbackError)]
  end.
Proof.
  destruct st as [ss os ses [pwq pq psz] wq un pw nt tr]; cbn.
  intros Hq Hs Hw Hm HB.
  unfold CallbackWorkerPool.__consume_queue, CallbackWorkerPool.queue_get,
    CallbackWorkerPool.call_callback, CallbackWorkerPool.write_queue_put,
    bind, try_except, get_session, modify, gets, when, lift, ret, raise, Queue_get.
  cbn. rewrite Hq. cbn. rewrite Hs. cbn.
  destruct (callback s payload) as [[|]|]; cbn.
  - subst pwq. cbn. rewrite (response_message_ok B HB).
    cbn. rewrite Hs. cbn. rewrite Queue_put_unbounded by assumption. cbn.
    rewrite <- !app_assoc. auto.
  - rewrite <- !app_assoc. auto.
  - rewrite <- !app_assoc. auto.
Qed.

Lemma ack_message_length (B : Z) : length (ack_message B) = 6%nat.
Proof. reflexivity. Qed.

(** C3.  A worker that takes block [B] of a session off the callback queue
    puts the acknowledgement of [B] on the write queue if and only if the
    callback of the session, called with the payload, returns a truthy
    value; the acknowledgement comes after the return of the callback in the
    order of events; when the callback returns a falsy value or raises, the
    write queue is left as it was, and in the second case the exception is
    logged and the turn of the worker ends normally. *)
Theorem ack_iff_callback_truthy (st : state) (sid : nat) (B : Z)
    (payload : list byte) (rest : list (nat * Z * list byte)) (s : PushSession) :
  items (pool_queue (pool st)) = (sid, B, payload) :: rest ->
  objs st !! sid = Some s ->
  pool_write_queue (pool st) = true ->
  maxsize (write_queue st) <= 0 ->
  0 <= B < 2 ^ 16 ->
  let st' := snd (CallbackWorkerPool.__consume_queue st) in
  fst (CallbackWorkerPool.__consume_queue st) = Ok tt /\
  (callback s payload = Returns true <->
   items (write_queue st') = items (write_queue st) ++ [(socket s, ack_message B)]) /\
  (callback s payload <> Returns true -> write_queue st' = write_queue st) /\
  exists new,
    trace st' = trace st ++ EvCall sid payload :: EvReturn sid (callback s payload) :: new /\
    (callback s payload = Returns true -> new = [EvAck (socket s) (ack_message B)]) /\
    (callback s payload = Returns false -> new = []) /\
    (callback s payload = Throws -> new = [EvLog (LogException CallbackError)]).
Proof.
  intros Hq Hs Hw Hm HB st'.
  destruct (consume_queue_run st sid B payload rest s Hq Hs Hw Hm HB) as (Hr & _ & Hc).
  fold st' in Hc. split; [exact Hr|].
  destruct (callback s payload) as [[|]|].
  - destruct Hc as [Hi Ht]. repeat split; try congruence; eauto.
    exists [EvAck (socket s) (ack_message B)]. repeat split; try congruence.
  - destruct Hc as [Hi Ht]. repeat split; try congruence.
    + rewrite Hi. intros Habs. apply (f_equal length) in Habs.
      rewrite length_app in Habs. simpl in Habs. lia.
    + exists []. repeat split; try congruence.
  - destruct Hc as [Hi Ht]. repeat split; try congruence.
    + rewrite Hi. intros Habs. apply (f_equal length) in Habs.
      rewrite length_app in Habs. simpl in Habs. lia.
    + exists [EvLog (LogException CallbackError)]. repeat split; try congruence.
Qed.

(** The hypotheses of [ack_iff_callback_truthy] hold once the reader of the
    one-session client has taken block 42 off the wire. *)
Lemma ack_iff_callback_truthy_witness :
  let st := snd (PushClient.select_pass no_zlib [5]
                   (connected accept_all
                      [Segment [x00; x03; x00; x00; x00; x0c];
                       Segment [x00; x2a; x00; x00; x00; x00; x00; x00; x00; x00;
                                x68; x69]])) in
  let st' := snd (CallbackWorkerPool.__consume_queue st) in
  items (write_queue st') = [(Some 0%nat, ack_message 42)].
Proof.
  intros st st'.
  pose proof (ack_iff_callback_truthy st 0 42 [x68; x69] []
                {| callback := accept_all; monitor_id := 9001; secure := None;
                   socket := Some 0%nat; data := Some []; message_length := 0 |}
                eq_refl eq_refl eq_refl ltac:(vm_compute; discriminate)
                ltac:(lia)) as (_ & Hiff & _).
  apply Hiff. reflexivity.
Defined.

(** C1.  For block 42 and a callback that returns [True], the worker puts
    six bytes on the write queue, [00 04 00 2A 00 C8]: the type, the block id
    and the status, without the four bytes of the length field; they are not
    the ten bytes [00 04 00 00 00 04 00 2A 00 C8]. *)
Theorem ack_frame_is_six_bytes :
  let st := snd (PushClient.select_pass no_zlib [5]
                   (connected accept_all
                      [Segment [x00; x03; x00; x00; x00; x0c];
                       Segment [x00; x2a; x00; x00; x00; x00; x00; x00; x00; x00;
                                x68; x69]])) in
  let st' := snd (CallbackWorkerPool.__consume_queue st) in
  items (pool_queue (pool st)) = [(0%nat, 42, [x68; x69])] /\
  items (write_queue st') = [(Some 0%nat, [x00; x04; x00; x2a; x00; xc8])] /\
  [x00; x04; x00; x2a; x00; xc8] <> [x00; x04; x00; x00; x00; x04; x00; x2a; x00; xc8].
Proof.
  vm_compute. repeat split; discriminate.
Qed.

(** ** The header of a frame *)

(** C7.  On the header [00 03 80 00 00 00], whose length field is [2^31],
    [_read_msg_header] returns the type 3 and leaves [message_length] at
    [-2147483648]: the length field is read as a signed integer. *)
Theorem read_msg_header_length_is_signed :
  let run := _read_msg_header 0
               (connected accept_all [Segment [x00; x03; x80; x00; x00; x00]]) in
  fst run = Ok 3 /\
  message_length <$> objs (snd run) !! 0%nat = Some (-2147483648) /\
  be_value [x80; x00; x00; x00] = 2147483648.
Proof.
  vm_compute. repeat split.
Qed.

(** ** Frames that are not publish messages *)

(** C2.  A frame of type 2 with a 12-byte body: the first turn of the reader
    logs the type and dispatches nothing, but leaves [message_length] at 12;
    the second turn reads the 12 bytes of the body and hands its bytes from
    offset 10 on to the callback pool, as the payload of block 42. *)
Theorem non_publish_body_is_dispatched :
  let st0 := connected accept_all
               [Segment [x00; x02; x00; x00; x00; x0c];
                Segment [x00; x2a; x00; x00; x00; x00; x00; x00; x00; x00; x68; x69]] in
  let st1 := snd (PushClient.select_pass no_zlib [5] st0) in
  let st2 := snd (PushClient.select_pass no_zlib [5] st1) in
  items (pool_queue (pool st1)) = [] /\
  last (trace st1) = Some (EvLog (LogWarnType 2)) /\
  message_length <$> objs st1 !! 0%nat = Some 12 /\
  items (pool_queue (pool st2)) = [(0%nat, 42, [x68; x69])].
Proof.
  vm_compute. repeat split.
Qed.

(** ** Dead sessions *)

Lemma dict_get_In (k : Z) (v : nat) (d : list (Z * nat)) :
  In (k, v) d -> exists v', dict_get k d = Some v' /\ In (k, v') d.
Proof.
  induction d as [|[k' v'] d IH]; simpl; [tauto|].
  intros [Heq | Hin].
  - inversion Heq; subst. rewrite Z.eqb_refl. eauto.
  - destruct (Z.eqb_spec k' k) as [->|Hne]; [eauto|].
    destruct (IH Hin) as (v'' & Hget & Hin'). eauto.
Qed.

(** While every session of the dictionary owns a socket,
    [__clean_dead_sessions] returns and changes nothing. *)
Lemma clean_dead_sessions_all_alive (st : state) :
  (forall k sid, In (k, sid) (sessions st) ->
                 exists s h, objs st !! sid = Some s /\ socket s = Some h) ->
  PushClient.__clean_dead_sessions st = (Ok tt, st).
Proof.
  intros Halive. unfold PushClient.__clean_dead_sessions, bind at 1, gets at 1.
  assert (Hkeys : forall k, In k (map fst (sessions st)) ->
                            exists sid, In (k, sid) (sessions st)).
  { intros k Hk. apply in_map_iff in Hk. destruct Hk as ([k' sid] & <- & Hin). eauto. }
  revert Hkeys. generalize (map fst (sessions st)) as keys.
  induction keys as [|k keys IH]; intros Hkeys.
  - cbn. unfold bind, gets. rewrite Nat.eqb_refl. reflexivity.
  - cbn [PushClient.for_keys]. unfold bind at 1, gets at 1.
    rewrite Nat.eqb_refl. cbn [negb].
    destruct (Hkeys k (or_introl eq_refl)) as (sid & Hin).
    destruct (dict_get_In k sid (sessions st) Hin) as (sid' & Hget & Hin').
    destruct (Halive k sid' Hin') as (s & h & Hs & Hsock).
    unfold bind at 1, bind at 1, sessions_getitem. rewrite Hget.
    unfold bind at 1, get_session. rewrite Hs.
    rewrite bool_decide_eq_false_2 by congruence.
    cbn [when ret].
    apply IH. intros k' Hk'. apply Hkeys. right. exact Hk'.
Qed.

Lemma dict_del_of_get (k : Z) (v : nat) (d : list (Z * nat)) :
  dict_get k d = Some v ->
  exists d', dict_del k d = Some d' /\ S (length d') = length d.
Proof.
  induction d as [|[k' v'] d IH]; simpl; [discriminate|].
  destruct (k' =? k); [eauto|].
  intros Hget. destruct (IH Hget) as (d' & -> & Hlen).
  eexists. split; [reflexivity|]. simpl. lia.
Qed.

Lemma for_keys_size_changed (used : nat) (keys : list Z) (body : Z -> M unit)
    (st : state) :
  length (sessions st) <> used ->
  PushClient.for_keys used keys body st = (Raise RuntimeError, st).
Proof.
  intros Hne. destruct keys; cbn [PushClient.for_keys];
    unfold bind, gets; apply Nat.eqb_neq in Hne; rewrite Hne; reflexivity.
Qed.

(** As soon as one session of the dictionary owns no socket,
    [__clean_dead_sessions] raises [RuntimeError]. *)
Lemma clean_dead_sessions_raises_when_dead (st : state) :
  (forall k sid, In (k, sid) (sessions st) -> is_Some (objs st !! sid)) ->
  (exists k sid s, In (k, sid) (sessions st) /\
                   dict_get k (sessions st) = Some sid /\
                   objs st !! sid = Some s /\ socket s = None) ->
  fst (PushClient.__clean_dead_sessions st) = Raise RuntimeError.
Proof.
  intros Hvalid (k0 & sid0 & s0 & Hin0 & Hget0 & Hs0 & Hdead0).
  unfold PushClient.__clean_dead_sessions, bind at 1, gets at 1.
  assert (Hkeys : forall k, In k (map fst (sessions st)) ->
                            exists sid, In (k, sid) (sessions st)).
  { intros k Hk. apply in_map_iff in Hk. destruct Hk as ([k' sid] & <- & Hin). eauto. }
  assert (Hk0 : In k0 (map fst (sessions st))).
  { apply in_map_iff. exists (k0, sid0). split; [reflexivity | exact Hin0]. }
  revert Hkeys Hk0. generalize (map fst (sessions st)) as keys.
  induction keys as [|k keys IH]; intros Hkeys Hk0; [destruct Hk0|].
  cbn [PushClient.for_keys]. unfold bind at 1, gets at 1.
  rewrite Nat.eqb_refl. cbn [negb].
  destruct (Hkeys k (or_introl eq_refl)) as (sid & Hin).
  destruct (dict_get_In k sid (sessions st) Hin) as (sid' & Hget & Hin').
  destruct (Hvalid k sid' Hin') as (s & Hs).
  unfold bind at 1, bind at 1, sessions_getitem. rewrite Hget.
  unfold bind at 1, get_session. rewrite Hs.
  destruct (socket s) as [h|] eqn:Hsock.
  - rewrite bool_decide_eq_false_2 by congruence. cbn [when ret].
    apply IH.
    + intros k' Hk'. apply Hkeys. right. exact Hk'.
    + destruct Hk0 as [-> | Hk0]; [|exact Hk0].
      rewrite Hget0 in Hget. inversion Hget; subst. congruence.
  - rewrite bool_decide_eq_true_2 by reflexivity. cbn [when].
    destruct (dict_del_of_get k sid' (sessions st) Hget) as (d' & Hdel & Hlen).
    unfold sessions_delitem. rewrite Hdel.
    rewrite for_keys_size_changed; [reflexivity|].
    cbn. lia.
Qed.

(** C8.  With two stopped sessions in the dictionary,
    [__clean_dead_sessions] deletes the first entry and then raises
    [RuntimeError] at the next step of the iteration; the entry of the
    second session, which owns no socket either, stays. *)
Theorem clean_dead_sessions_raises :
  sessions two_stopped = [(5, 0%nat); (6, 1%nat)] /\
  socket <$> objs two_stopped !! 0%nat = Some None /\
  socket <$> objs two_stopped !! 1%nat = Some None /\
  fst (PushClient.__clean_dead_sessions two_stopped) = Raise RuntimeError /\
  sessions (snd (PushClient.__clean_dead_sessions two_stopped)) = [(6, 1%nat)].
Proof.
  vm_compute. repeat split.
Qed.

(** ** The callback queue *)

Lemma Queue_full_spec {A} (q : Queue A) (W : Z) :
  maxsize q = W -> 1 <= W ->
  Queue_full q = true <-> W <= Z.of_nat (length (items q)).
Proof.
  intros Hm HW. unfold Queue_full. rewrite Hm.
  destruct (Z.ltb_spec 0 W); [|lia].
  destruct (Z.leb_spec W (Z.of_nat (length (items q)))); simpl;
    split; intros; try lia; congruence.
Qed.

(** With no positive [size] the queue of the pool never fills: [Queue(0)] is
    unbounded, and no worker is started. *)
Lemma callback_queue_unbounded_without_workers (wq : bool) (W : Z)
    (q : list (nat * Z * list byte)) :
  W <= 0 ->
  CallbackWorkerPool.workers (CallbackWorkerPool.__init__ wq W) = 0%nat /\
  Queue_full {| maxsize := maxsize (pool_queue (CallbackWorkerPool.__init__ wq W));
                items := q |} = false.
Proof.
  intros HW. split.
  - unfold CallbackWorkerPool.workers; simpl. lia.
  - unfold Queue_full; simpl. destruct (Z.ltb_spec 0 W); [lia | reflexivity].
Qed.

(** C9.  A pool built for [W >= 1] workers starts [W] workers and has an
    empty queue of capacity [W].  In every state whose callback queue has
    that capacity: [queue_callback] appends its item when fewer than [W]
    items wait, and otherwise does not return and changes nothing; after a
    worker has taken an item off a full queue, [queue_callback] returns; and
    neither operation changes the capacity or lets the queue hold more than
    [W] items. *)
Theorem callback_queue_capacity (W : Z) (wq : bool) :
  1 <= W ->
  let p := CallbackWorkerPool.__init__ wq W in
  maxsize (pool_queue p) = W /\
  items (pool_queue p) = [] /\
  CallbackWorkerPool.workers p = Z.to_nat W /\
  forall (st : state) (session : nat) (block_id : Z) (data : list byte),
    maxsize (pool_queue (pool st)) = W ->
    Z.of_nat (length (items (pool_queue (pool st)))) <= W ->
    let put := CallbackWorkerPool.queue_callback session block_id data st in
    let get := CallbackWorkerPool.queue_get st in
    (Z.of_nat (length (items (pool_queue (pool st)))) < W ->
     fst put = Ok tt /\
     items (pool_queue (pool (snd put))) =
       items (pool_queue (pool st)) ++ [(session, block_id, data)]) /\
    (Z.of_nat (length (items (pool_queue (pool st)))) = W ->
     put = (Blocked, st) /\
     exists item,
       fst get = Ok item /\
       fst (CallbackWorkerPool.queue_callback session block_id data (snd get)) = Ok tt) /\
    maxsize (pool_queue (pool (snd put))) = W /\
    maxsize (pool_queue (pool (snd get))) = W /\
    Z.of_nat (length (items (pool_queue (pool (snd put))))) <= W /\
    Z.of_nat (length (items (pool_queue (pool (snd get))))) <= W.
Proof.
  intros HW p. repeat split; try reflexivity.
  - destruct st as [ss os ses [pwq [m q] psz] wqu un pw nt tr]; cbn in *.
    subst m.
    unfold CallbackWorkerPool.queue_callback, Queue_put; cbn.
    pose proof (Queue_full_spec {| maxsize := W; items := q |} W eq_refl HW) as Hf.
    destruct (Queue_full {| maxsize := W; items := q |}); cbn in *; [|reflexivity].
    destruct Hf as [Hf _]. specialize (Hf eq_refl). lia.
  - destruct st as [ss os ses [pwq [m q] psz] wqu un pw nt tr]; cbn in *.
    subst m.
    unfold CallbackWorkerPool.queue_callback, Queue_put; cbn.
    pose proof (Queue_full_spec {| maxsize := W; items := q |} W eq_refl HW) as Hf.
    destruct (Queue_full {| maxsize := W; items := q |}); cbn in *; [|reflexivity].
    destruct Hf as [Hf _]. specialize (Hf eq_refl). lia.
  - destruct st as [ss os ses [pwq [m q] psz] wqu un pw nt tr]; cbn in *.
    subst m.
    unfold CallbackWorkerPool.queue_callback, Queue_put; cbn.
    pose proof (Queue_full_spec {| maxsize := W; items := q |} W eq_refl HW) as Hf.
    destruct (Queue_full {| maxsize := W; items := q |}); cbn in *; [reflexivity|].
    destruct Hf as [_ Hf]. cbn in Hf. assert (false = true) by (apply Hf; lia). congruence.
  - destruct st as [ss os ses [pwq [m q] psz] wqu un pw nt tr]; cbn in *.
    subst m.
    destruct q as [|item q']; cbn in *; [lia|].
    exists item. split; [reflexivity|].
    unfold CallbackWorkerPool.queue_get, CallbackWorkerPool.queue_callback,
      Queue_get, Queue_put; cbn.
    pose proof (Queue_full_spec {| maxsize := W; items := q' |} W eq_refl HW) as Hf.
    destruct (Queue_full {| maxsize := W; items := q' |}); cbn in *; [|reflexivity].
    destruct Hf as [Hf _]. specialize (Hf eq_refl). lia.
  - destruct st as [ss os ses [pwq [m q] psz] wqu un pw nt tr]; cbn in *.
    unfold CallbackWorkerPool.queue_callback, Queue_put; cbn.
    destruct (Queue_full {| maxsize := m; items := q |}); cbn; assumption.
  - destruct st as [ss os ses [pwq [m q] psz] wqu un pw nt tr]; cbn in *.
    unfold CallbackWorkerPool.queue_get, Queue_get; cbn.
    destruct q; cbn; assumption.
  - destruct st as [ss os ses [pwq [m q] psz] wqu un pw nt tr]; cbn in *.
    subst m.
    unfold CallbackWorkerPool.queue_callback, Queue_put; cbn.
    pose proof (Queue_full_spec {| maxsize := W; items := q |} W eq_refl HW) as Hf.
    destruct (Queue_full {| maxsize := W; items := q |}); cbn in *; [assumption|].
    rewrite length_app; cbn.
    destruct (Z_lt_le_dec (Z.of_nat (length q)) W); [lia|].
    destruct Hf as [_ Hf]. assert (false = true) by (apply Hf; lia). congruence.
  - destruct st as [ss os ses [pwq [m q] psz] wqu un pw nt tr]; cbn in *.
    unfold CallbackWorkerPool.queue_get, Queue_get; cbn.
    destruct q; cbn in *; lia.
Qed.

(** The default pool of a client, one worker: the second item has to wait
    for the worker. *)
Lemma callback_queue_capacity_witness :
  let st := PushClient.__init__ [x75] [x70] 1 [] in
  let st1 := snd (CallbackWorkerPool.queue_callback 0 1 [] st) in
  CallbackWorkerPool.queue_callback 0 2 [] st1 = (Blocked, st1).
Proof.
  intros st st1.
  destruct (callback_queue_capacity 1 true ltac:(lia)) as (_ & _ & _ & H).
  destruct (H st1 0%nat 2 [] eq_refl ltac:(vm_compute; discriminate))
    as (_ & Hfull & _).
  apply Hfull. reflexivity.
Defined.

(** ** Starting and stopping a session *)

Lemma wp_consequence {A} (m : M A) st (Q Q' : result A -> state -> Prop) :
  wp m st Q' -> (forall r st', Q' r st' -> Q r st') -> wp m st Q.
Proof. unfold wp. intros H HQ. apply HQ, H. Qed.

Lemma with_socket_None_id (s : PushSession) (os : list PushSession) (sid : nat) :
  os !! sid = Some s -> socket s = None -> <[sid := with_socket None s]> os = os.
Proof.
  intros Hs Hsock. apply list_insert_id. rewrite Hs. f_equal.
  destruct s; cbn in *; subst; reflexivity.
Qed.

Lemma session_start_run (st : state) (sid : nat) (s : PushSession) :
  objs st !! sid = Some s -> socket s = None ->
  wp (session_start sid) st (fun r st' =>
    let h := length (socks st) in
    sessions st' = sessions st /\ pool st' = pool st /\
    write_queue st' = write_queue st /\
    username st' = username st /\ password st' = password st /\
    match r with
    | Ok _ =>
        objs st' = <[sid := with_socket (Some h) s]> (objs st) /\
        trace st' = trace st ++ handshake_steps h (push_port s) (request_of st s) /\
        exists cs rest response later,
          net st = Some cs :: rest /\ net st' = rest /\
          cs_connect_ok cs = true /\ cs_send_ok cs = true /\
          cs_inbox cs = Segment response :: later /\
          length (take 10 response) = 10%nat /\
          unpack_H (slice 0 2 (take 10 response)) = Ok CONNECTION_RESPONSE /\
          unpack_H (slice 6 8 (take 10 response)) = Ok STATUS_OK /\
          socks st' = socks st ++
            [{| script := cs; wrapped := bool_decide (secure s <> None);
                is_closed := false; mode := NonBlockingMode;
                inbox := match drop 10 response with
                         | [] => later
                         | _ => Segment (drop 10 response) :: later
                         end;
                outbox := [request_of st s] |}]
    | Raise e =>
        objs st' = <[sid := with_socket None s]> (objs st) /\
        ((socks st' = socks st /\ trace st' = trace st) \/
         exists so k,
           socks st' = socks st ++ [so] /\ is_closed so = true /\
           trace st' = trace st ++ take k (handshake_steps h (push_port s) (request_of st s))
                                ++ [EvClose h])
    | _ => False
    end).
Proof.
  destruct st as [ss os ses pl wq un pw nt tr].
  intros Hs Hsock. cbn [objs] in Hs.
  pose proof (with_socket_None_id s os sid Hs Hsock) as Hid.
  destruct s as [cb mid sec sock dat ml]. cbn [socket] in Hsock. subst sock.
  assert (Hlt : (sid < length os)%nat) by (eapply lookup_lt_Some; eauto).
  match goal with |- wp _ _ ?P => set (Q := P) end.
  repeat wp_step.
  all: subst Q; cbv beta; unfold request_of, push_port;
    cbn [socks objs sessions pool write_queue username password net trace
         secure monitor_id with_socket] in *;
    rewrite ?Hrequest.
  all: repeat (split; [reflexivity|]).
  all: try (split; [first [reflexivity | symmetry; exact Hid]|]).
  all: try solve [left; split; reflexivity].
  all: try solve [right; eexists;
                  first [ exists 0%nat; repeat split; cbn; rewrite <- ?app_assoc; reflexivity
                        | exists 1%nat; repeat split; cbn; rewrite <- ?app_assoc; reflexivity
                        | exists 2%nat; repeat split; cbn; rewrite <- ?app_assoc; reflexivity
                        | exists 3%nat; repeat split; cbn; rewrite <- ?app_assoc; reflexivity
                        | exists 4%nat; repeat split; cbn; rewrite <- ?app_assoc; reflexivity
                        | exists 5%nat; repeat split; cbn; rewrite <- ?app_assoc; reflexivity
                        | exists 6%nat; repeat split; cbn; rewrite <- ?app_assoc; reflexivity ]].
  all: repeat match goal with
              | H : (_ =? _)%nat = true |- _ => apply Nat.eqb_eq in H
              | H : (_ =? _)%Z = true |- _ => apply Z.eqb_eq in H
              end.
  all: try discriminate.
  all: subst.
  all: split; [cbn; rewrite <- ?app_assoc; reflexivity|].
  all: do 4 eexists; repeat split; eauto.
Qed.

(** A ConnectionResponse with status 403: [start] raises [PushException],
    the socket is closed and the session has none. *)
Example start_unauthorized :
  let response := [x00; x02; x00; x00; x00; x04; x01; x93; x00; x00] in
  let script := {| cs_fileno := 5; cs_wrap_ok := true; cs_connect_ok := true;
                   cs_send_ok := true; cs_inbox := [Segment response] |} in
  let run := (let! session := PushSession.__init__ accept_all 9001 None in
              session_start session)
               (PushClient.__init__ [x75] [x70] 1 [Some script]) in
  fst run = Raise PushException /\
  socket <$> objs (snd run) !! 0%nat = Some None /\
  is_closed <$> socks (snd run) !! 0%nat = Some true.
Proof. vm_compute. repeat split. Qed.






Lemma dict_get_set_eq (k : Z) (v : nat) (d : list (Z * nat)) :
  dict_get k (dict_set k v d) = Some v.
Proof.
  induction d as [|[k' v'] d IH]; simpl.
  - rewrite Z.eqb_refl. reflexivity.
  - destruct (k' =? k) eqn:E; simpl.
    + rewrite Z.eqb_refl. reflexivity.
    + rewrite E. exact IH.
Qed.

Lemma wp_run_eq {A} (m : M A) st (rhs : result A * state) :
  wp m st (fun r st' => (r, st') = rhs) -> m st = rhs.
Proof. unfold wp. destruct (m st). exact id. Qed.

(** What [stop] does to a session that owns a socket. *)
Lemma stop_run (st : state) (sid h : nat) (s : PushSession) (so : socket_obj) :
  objs st !! sid = Some s ->
  socket s = Some h ->
  socks st !! h = Some so ->
  PushSession.stop sid st =
  (Ok tt, set_objs (fun l => <[sid := with_data None (with_socket None s)]> l)
            (set_socks (fun l => <[h := with_closed so]> l)
               (emit (EvClose h) st))).
Proof.
  destruct st as [ss os ses pl wq un pw nt tr].
  destruct s as [cb mid sec sock dat ml].
  cbn [objs socks socket]. intros Hs -> Hso.
  assert (Hlt : (sid < length os)%nat) by (eapply lookup_lt_Some; eauto).
  apply wp_run_eq.
  repeat wp_step. state_simpl. reflexivity.
Qed.

(** What [__restart_session] does to a session that owns a socket and is
    registered under its file number. *)
Lemma restart_session_run (st : state) (sid h : nat) (s : PushSession)
    (so : socket_obj) (d : list (Z * nat)) :
  objs st !! sid = Some s ->
  socket s = Some h ->
  socks st !! h = Some so ->
  dict_del (if is_closed so then -1 else fileno so) (sessions st) = Some d ->
  wp (PushClient.__restart_session sid) st
    (fun r st' =>
       exists s', objs st' !! sid = Some s' /\
                  data s' = None /\
                  message_length s' = message_length s /\
                  (r = Ok tt ->
                   exists h' so',
                     socket s' = Some h' /\
                     socks st' !! h' = Some so' /\
                     is_closed so' = false /\
                     dict_get (fileno so') (sessions st') = Some sid)).
Proof.
  intros Hs Hsock Hso Hd.
  assert (Hlt : (sid < length (objs st))%nat) by (eapply lookup_lt_Some; eauto).
  destruct st as [ss os ses pl wq un pw nt tr].
  destruct s as [cb mid sec sock dat ml].
  cbn [objs socks socket sessions message_length] in *. subst sock.
  unfold PushClient.__restart_session.
  repeat (lazymatch goal with
          | |- wp (session_start _) _ _ => fail
          | |- _ => wp_step
          end).
  eapply wp_consequence.
  { eapply session_start_run; [solve_lookup | reflexivity]. }
  intros r [ss' os' ses' pl' wq' un' pw' nt' tr'].
  state_simpl.
  intros (Hses & _ & _ & _ & _ & Hr).
  destruct r as [[]|e| |]; try contradiction.
  + destruct Hr as (Hobjs & _ & cs & rest & response & later & Hr).
    destruct Hr as (_ & _ & _ & _ & _ & _ & _ & _ & Hsocks).
    subst ss' os' ses'.
    repeat wp_step.
    eexists. split; [solve_lookup|].
    repeat split.
    intros _. do 2 eexists.
    split; [reflexivity|]. split; [apply lookup_snoc|].
    split; [reflexivity|]. apply dict_get_set_eq.
  + destruct Hr as (Hobjs & _). subst os'.
    eexists. split; [solve_lookup|].
    repeat split. intros; discriminate.
Qed.

(** C10.  [stop] on a session that owns a socket returns, and afterwards
    the session has no socket, its [data] is [None] (not the empty byte
    string) and its [message_length] is what it was.  [__restart_session] on
    such a session, registered under the file number of its socket, leaves
    [data] at [None] and [message_length] as it was, whether the new
    handshake succeeds or not; when it returns, the session owns a socket
    again and is back in the dictionary under the file number of that
    socket, with [data] still [None]. *)
Theorem stop_and_restart_leave_data_None (st : state) (sid h : nat)
    (s : PushSession) (so : socket_obj) :
  objs st !! sid = Some s ->
  socket s = Some h ->
  socks st !! h = Some so ->
  let stopped := PushSession.stop sid st in
  let restarted := PushClient.__restart_session sid st in
  (fst stopped = Ok tt /\
   exists s', objs (snd stopped) !! sid = Some s' /\
              socket s' = None /\ data s' = None /\
              message_length s' = message_length s) /\
  (dict_del (if is_closed so then -1 else fileno so) (sessions st) <> None ->
   exists s', objs (snd restarted) !! sid = Some s' /\
              data s' = None /\
              message_length s' = message_length s /\
              (fst restarted = Ok tt ->
               exists h' so',
                 socket s' = Some h' /\
                 socks (snd restarted) !! h' = Some so' /\
                 is_closed so' = false /\
                 dict_get (fileno so') (sessions (snd restarted)) = Some sid)).
Proof.
  intros Hs Hsock Hso stopped restarted.
  assert (Hlt : (sid < length (objs st))%nat) by (eapply lookup_lt_Some; eauto).
  split.
  - subst stopped. rewrite (stop_run st sid h s so Hs Hsock Hso).
    split; [reflexivity|].
    eexists. split; [cbn; apply list_lookup_insert_eq; assumption|].
    repeat split.
  - intros Hdel.
    destruct (dict_del (if is_closed so then -1 else fileno so) (sessions st))
      as [d|] eqn:Hd; [clear Hdel | congruence].
    exact (restart_session_run st sid h s so d Hs Hsock Hso Hd).
Qed.

(** The hypotheses of [stop_and_restart_leave_data_None] hold for the session
    of [reconnectable]; its restart succeeds and leaves [data] at [None]. *)
Lemma stop_and_restart_leave_data_None_witness :
  let restarted := PushClient.__restart_session 0 reconnectable in
  exists s', objs (snd restarted) !! 0%nat = Some s' /\ data s' = None.
Proof.
  intros restarted.
  destruct (stop_and_restart_leave_data_None reconnectable 0 0 _ _
              eq_refl eq_refl eq_refl) as [_ H].
  destruct (H ltac:(vm_compute; discriminate)) as (s' & Hs' & Hdata & _).
  exists s'. split; [exact Hs' | exact Hdata].
Defined.

(** After the restart the session is under file number 6, and the next turn
    of the reader on it ends in the [TypeError] of [len(None)], which the
    loop logs. *)
Example reader_after_restart :
  let restarted := snd (PushClient.__restart_session 0 reconnectable) in
  sessions restarted = [(6, 0%nat)] /\
  last (trace (snd (PushClient.select_pass no_zlib [6] restarted))) =
    Some (EvLog (LogException TypeError)).
Proof. vm_compute. split; reflexivity. Qed.

(** ** The body of a publish message *)

Lemma wp_sock_recv_whole (h : nat) (n : Z) (so : socket_obj) (seg : list byte)
    (rest : list recv_event) st Q :
  socks st !! h = Some so ->
  is_closed so = false ->
  inbox so = Segment seg :: rest ->
  (length seg <= Z.to_nat n)%nat ->
  0 <= n ->
  Q (Ok seg) (set_socks (fun l => <[h := with_inbox rest so]> l)
                (emit (EvRecv h n (mode so)) st)) ->
  wp (sock_recv h n) st Q.
Proof.
  intros Hso Hclosed Hinbox Hlen Hn HQ.
  unfold sock_recv. apply wp_bind. eapply wp_get_sock; [exact Hso|].
  apply wp_bind, wp_modify.
  destruct (Z.ltb_spec n 0); [lia|].
  rewrite Hclosed, Hinbox. cbv zeta.
  rewrite drop_ge, take_ge by assumption.
  apply wp_bind. unfold put_sock. apply wp_modify, wp_ret. exact HQ.
Qed.

Lemma wp_queue_callback (session : nat) (block_id : Z) (payload : list byte) st Q :
  Queue_full (pool_queue (pool st)) = false ->
  Q (Ok tt)
    (set_pool {| pool_write_queue := pool_write_queue (pool st);
                 pool_queue := {| maxsize := maxsize (pool_queue (pool st));
                                  items := items (pool_queue (pool st)) ++
                                           [(session, block_id, payload)] |};
                 pool_size := pool_size (pool st) |} st) ->
  wp (CallbackWorkerPool.queue_callback session block_id payload) st Q.
Proof.
  unfold wp, CallbackWorkerPool.queue_callback, Queue_put. intros ->. exact id.
Qed.

Lemma slice_length (a b : nat) (l : list byte) :
  (a <= b)%nat -> (b <= length l)%nat -> length (slice a b l) = (b - a)%nat.
Proof.
  intros Hab Hb. unfold slice. rewrite length_take, length_drop. lia.
Qed.

Ltac prune :=
  try solve [exfalso;
             repeat match goal with
                    | H : (_ =? _)%Z = true |- _ => apply Z.eqb_eq in H
                    | H : (_ =? _)%Z = false |- _ => apply Z.eqb_neq in H
                    | H : (_ <? _)%Z = true |- _ => apply Z.ltb_lt in H
                    | H : (_ <? _)%Z = false |- _ => apply Z.ltb_ge in H
                    | H : (_ =? _)%nat = true |- _ => apply Nat.eqb_eq in H
                    | H : (_ =? _)%nat = false |- _ => apply Nat.eqb_neq in H
                    end;
             rewrite ?length_app in *; simpl in *; lia];
  try discriminate.

Ltac wp_read :=
  state_simpl;
  lazymatch goal with
  | |- wp (py_len _) _ _ => unfold py_len
  | |- wp (py_slice _ _ _) _ _ => unfold py_slice
  | |- wp (py_from _ _) _ _ => unfold py_from
  | |- wp (data_iadd _ _) _ _ => unfold data_iadd
  | |- wp (_read_msg _) _ _ => unfold _read_msg
  | |- wp (PushClient.select_pass _ _) _ _ => unfold PushClient.select_pass
  | |- wp (PushClient.select_body _ _) _ _ => unfold PushClient.select_body
  | |- wp (for_each _ _) _ _ => cbn [for_each]
  | |- wp (CallbackWorkerPool.queue_callback _ _ _) _ _ =>
      eapply wp_queue_callback; [state_simpl; eassumption|]
  | H : unpack_H ?b = Ok _ |- match unpack_H ?b with _ => _ end => rewrite H
  | H : unpack_B ?b = Ok _ |- match unpack_B ?b with _ => _ end => rewrite H
  | H : unpack_i ?b = Ok _ |- match unpack_i ?b with _ => _ end => rewrite H
  | |- wp (sock_recv _ _) _ _ =>
      eapply wp_sock_recv_whole;
      [solve_lookup | reflexivity | reflexivity
       | rewrite ?length_app in *; simpl in *; lia
       | rewrite ?length_app in *; simpl in *; lia | ]
  | |- wp (if negb ?b then _ else _) _ _ => destruct b eqn:?; cbn [negb]; prune
  | |- wp (if ?b then _ else _) _ _ => destruct b eqn:?; prune
  | |- wp (match ?x with _ => _ end) _ _ => destruct x eqn:?; try discriminate
  | |- _ => wp_step
  end.


Section Reader.

Variable zlib_decompress : list byte -> option (list byte).
Variables (fd : Z) (sid h : nat).

(** A turn of the reader on a segment that does not complete the body. *)
Lemma select_pass_partial (st : state) (s : PushSession) (so : socket_obj)
    (acc seg : list byte) (rest : list recv_event) :
  dict_get fd (sessions st) = Some sid ->
  objs st !! sid = Some s ->
  socket s = Some h ->
  data s = Some acc ->
  socks st !! h = Some so ->
  is_closed so = false ->
  inbox so = Segment seg :: rest ->
  seg <> [] ->
  Z.of_nat (length acc + length seg) < message_length s ->
  PushClient.select_pass zlib_decompress [fd] st =
  (Ok tt,
   set_objs (fun l => <[sid := with_data (Some (acc ++ seg)) s]> l)
     (set_socks (fun l => <[h := with_inbox rest so]> l)
        (emit (EvRecv h (message_length s - Z.of_nat (length acc)) (mode so)) st))).
Proof.
  destruct st as [ss os ses pl wq un pw nt tr].
  destruct s as [cb mid sec sock dat ml].
  destruct so as [scr wr cl md ib ob].
  cbn [objs socks socket data message_length is_closed inbox mode sessions].
  intros Hfd Hs -> -> Hso -> -> Hseg Hlen.
  assert (Hlt : (sid < length os)%nat) by (eapply lookup_lt_Some; eauto).
  assert (Hpos : (0 < length seg)%nat) by (destruct seg; simpl; [congruence | lia]).
  apply wp_run_eq.
  repeat wp_read.
  state_simpl. reflexivity.
Qed.

(** The turn of the reader on the segment that completes the body. *)
Lemma select_pass_complete (st : state) (s : PushSession) (so : socket_obj)
    (acc seg payload : list byte) (rest : list recv_event) :
  dict_get fd (sessions st) = Some sid ->
  objs st !! sid = Some s ->
  socket s = Some h ->
  data s = Some acc ->
  socks st !! h = Some so ->
  is_closed so = false ->
  inbox so = Segment seg :: rest ->
  seg <> [] ->
  Z.of_nat (length acc + length seg) = message_length s ->
  (10 <= length (acc ++ seg))%nat ->
  Queue_full (pool_queue (pool st)) = false ->
  (if be_value (slice 4 5 (acc ++ seg)) =? 1
   then zlib_decompress (drop 10 (acc ++ seg))
   else Some (drop 10 (acc ++ seg))) = Some payload ->
  wp (PushClient.select_pass zlib_decompress [fd]) st
    (fun r st' =>
       r = Ok tt /\
       items (pool_queue (pool st')) =
         items (pool_queue (pool st)) ++
         [(sid, be_value (slice 0 2 (acc ++ seg)), payload)] /\
       objs st' !! sid = Some (with_message_length 0 (with_data (Some []) s)) /\
       socks st' !! h = Some (with_inbox rest so)).
Proof.
  destruct st as [ss os ses pl wq un pw nt tr].
  destruct s as [cb mid sec sock dat ml].
  destruct so as [scr wr cl md ib ob].
  cbn [objs socks socket data message_length is_closed inbox mode sessions pool].
  intros Hfd Hs -> -> Hso -> -> Hseg Hlen Hten Hfull Hz.
  assert (Hlt : (sid < length os)%nat) by (eapply lookup_lt_Some; eauto).
  assert (Hlth : (h < length ss)%nat) by (eapply lookup_lt_Some; eauto).
  assert (Hpos : (0 < length seg)%nat) by (destruct seg; simpl; [congruence | lia]).
  assert (Hid : unpack_H (slice 0 2 (acc ++ seg)) = Ok (be_value (slice 0 2 (acc ++ seg)))).
  { unfold unpack_H. rewrite slice_length by lia. reflexivity. }
  assert (Hcomp : unpack_B (slice 4 5 (acc ++ seg)) = Ok (be_value (slice 4 5 (acc ++ seg)))).
  { unfold unpack_B. rewrite slice_length by lia. reflexivity. }
  destruct (be_value (slice 4 5 (acc ++ seg)) =? 1) eqn:Ecomp.
  all: repeat wp_read.
  all: state_simpl.
  all: split; [reflexivity|].
  all: split; [cbn; congruence|].
  all: split; apply list_lookup_insert_eq; assumption.
Qed.

(** The turns of the reader over the segments of a body, from a session that
    has accumulated [acc] of it. *)
Lemma select_rounds_body (segs : list (list byte)) :
  forall (st : state) (s : PushSession) (so : socket_obj)
         (acc payload : list byte) (later : list recv_event),
    segs <> [] ->
    dict_get fd (sessions st) = Some sid ->
    objs st !! sid = Some s ->
    socket s = Some h ->
    data s = Some acc ->
    socks st !! h = Some so ->
    is_closed so = false ->
    inbox so = map Segment segs ++ later ->
    Forall (fun seg => seg <> []) segs ->
    Z.of_nat (length (acc ++ concat segs)) = message_length s ->
    (10 <= length (acc ++ concat segs))%nat ->
    Queue_full (pool_queue (pool st)) = false ->
    (if be_value (slice 4 5 (acc ++ concat segs)) =? 1
     then zlib_decompress (drop 10 (acc ++ concat segs))
     else Some (drop 10 (acc ++ concat segs))) = Some payload ->
    wp (PushClient.select_rounds zlib_decompress (repeat [fd] (length segs))) st
      (fun r st' =>
         r = Ok tt /\
         items (pool_queue (pool st')) =
           items (pool_queue (pool st)) ++
           [(sid, be_value (slice 0 2 (acc ++ concat segs)), payload)] /\
         objs st' !! sid = Some (with_message_length 0 (with_data (Some []) s)) /\
         exists so', socks st' !! h = Some so' /\ inbox so' = later /\
                     is_closed so' = false).
Proof.
  induction segs as [|seg segs IH]; [congruence|].
  intros st s so acc payload later _ Hfd Hs Hsock Hdata Hso Hclosed Hinbox Hne
    Hlen Hten Hfull Hz.
  assert (Hlt : (sid < length (objs st))%nat) by (eapply lookup_lt_Some; eauto).
  assert (Hlth : (h < length (socks st))%nat) by (eapply lookup_lt_Some; eauto).
  inversion Hne as [|? ? Hseg Hne']; subst.
  cbn [length repeat PushClient.select_rounds concat map app] in *.
  destruct segs as [|seg2 segs].
  - cbn [length repeat PushClient.select_rounds concat map app] in *.
    rewrite app_nil_r in *.
    apply wp_bind.
    eapply wp_consequence.
    { eapply (select_pass_complete st s so acc seg payload later); eauto.
      rewrite length_app in Hlen. rewrite <- Hlen. lia. }
    intros r st' (-> & Hitems & Hobjs & Hsocks).
    apply wp_ret. split; [reflexivity|]. split; [exact Hitems|].
    split; [exact Hobjs|].
    eexists. split; [exact Hsocks|]. split; [reflexivity | exact Hclosed].
  - apply wp_bind. unfold wp at 1.
    rewrite (select_pass_partial st s so acc seg
               (map Segment (seg2 :: segs) ++ later)); eauto.
    2:{ rewrite <- Hlen. rewrite !length_app. cbn [concat]. rewrite length_app.
        inversion Hne' as [|? ? Hseg2 _]; subst.
        destruct seg2; [congruence|]. simpl. lia. }
    cbn [fst snd].
    eapply wp_consequence.
    { eapply (IH _ (with_data (Some (acc ++ seg)) s)
                (with_inbox (map Segment (seg2 :: segs) ++ later) so)
                (acc ++ seg) payload later); try assumption.
      - congruence.
      - cbn. apply list_lookup_insert_eq; assumption.
      - reflexivity.
      - cbn. apply list_lookup_insert_eq; assumption.
      - reflexivity.
      - rewrite <- app_assoc. exact Hlen.
      - rewrite <- app_assoc. exact Hten.
      - rewrite <- app_assoc. exact Hz. }
    intros r st' (-> & Hitems & Hobjs & Hsocks).
    split; [reflexivity|]. rewrite <- app_assoc in Hitems.
    split; [exact Hitems|]. split; [exact Hobjs | exact Hsocks].
Qed.

End Reader.

(** Scenario: the frame of block 42 with payload [hi] arrives in segments of
    4, 7 and 7 bytes; three turns of the reader dispatch it once. *)
Example partial_reads_dispatch_once :
  let st := connected accept_all
              [Segment [x00; x03; x00; x00];
               Segment [x00; x0c; x00; x2a; x00; x00; x00];
               Segment [x00; x00; x00; x00; x00; x68; x69]] in
  items (pool_queue (pool (snd (PushClient.select_rounds no_zlib [[5]; [5]; [5]] st)))) =
  [(0%nat, 42, [x68; x69])].
Proof. vm_compute. reflexivity. Qed.

(** C4.  A session is waiting for the body of a publish message: its buffer
    is empty and [message_length] is the length of the body.  The body
    arrives in any number of non-empty segments, and the callback queue has
    room.  After one turn of the reader per segment exactly one item has been
    added to the callback queue: the session, the block id read big-endian
    from bytes 0-2 of the body, and the payload, which is the body from
    offset 10 on, inflated by [zlib.decompress] when byte 4 of the body is 1;
    the receive state of the session is reset and what followed the body on
    the socket is still to be read. *)
Theorem publish_payload_dispatched
    (zlib_decompress : list byte -> option (list byte))
    (st : state) (fd : Z) (sid h : nat) (s : PushSession) (so : socket_obj)
    (segs : list (list byte)) (later : list recv_event) (payload : list byte) :
  let body := concat segs in
  dict_get fd (sessions st) = Some sid ->
  objs st !! sid = Some s ->
  socket s = Some h ->
  data s = Some [] ->
  message_length s = Z.of_nat (length body) ->
  socks st !! h = Some so ->
  is_closed so = false ->
  inbox so = map Segment segs ++ later ->
  Forall (fun seg => seg <> []) segs ->
  (10 <= length body)%nat ->
  Queue_full (pool_queue (pool st)) = false ->
  (if be_value (slice 4 5 body) =? 0x01
   then zlib_decompress (drop 10 body)
   else Some (drop 10 body)) = Some payload ->
  let run := PushClient.select_rounds zlib_decompress (repeat [fd] (length segs)) st in
  fst run = Ok tt /\
  items (pool_queue (pool (snd run))) =
    items (pool_queue (pool st)) ++ [(sid, be_value (slice 0 2 body), payload)] /\
  (exists s', objs (snd run) !! sid = Some s' /\
              data s' = Some [] /\ message_length s' = 0) /\
  (exists so', socks (snd run) !! h = Some so' /\ inbox so' = later).
Proof.
  intros body Hfd Hs Hsock Hdata Hml Hso Hclosed Hinbox Hne Hten Hfull Hz run.
  assert (Hsegs : segs <> []).
  { intros ->. subst body. simpl in Hten. lia. }
  pose proof (select_rounds_body zlib_decompress fd sid h segs st s so [] payload later
                Hsegs Hfd Hs Hsock Hdata Hso Hclosed Hinbox Hne
                (eq_sym Hml) Hten Hfull Hz) as H.
  unfold wp in H. fold run in H.
  destruct H as (Hr & Hitems & Hobjs & so' & Hso' & Hin & _).
  split; [exact Hr|]. split; [exact Hitems|].
  split; [eexists; split; [exact Hobjs|]; split; reflexivity|].
  exists so'. split; assumption.
Qed.

(** The hypotheses of [publish_payload_dispatched] hold in [body_pending]:
    the body comes in segments of 4 and 8 bytes. *)
Lemma publish_payload_dispatched_witness :
  items (pool_queue (pool (snd (PushClient.select_rounds no_zlib [[5]; [5]] body_pending)))) =
  [(0%nat, be_value [x00; x2a], [x68; x69])].
Proof.
  destruct (publish_payload_dispatched no_zlib body_pending 5 0 0 _ _
              [[x00; x2a; x00; x00]; [x00; x00; x00; x00; x00; x00; x68; x69]]
              [] [x68; x69]
              eq_refl eq_refl eq_refl eq_refl eq_refl eq_refl eq_refl eq_refl
              ltac:(repeat constructor; discriminate)
              ltac:(simpl; lia)
              eq_refl eq_refl) as (_ & H & _).
  exact H.
Defined.

(** ** Headers of other types, in general *)

(** A turn of the reader on a complete header whose type is not
    [PUBLISH_MESSAGE]: the type is logged, nothing is dispatched, and
    [message_length] stays at the decoded length field [n]. *)
Lemma select_pass_non_publish
    (zlib_decompress : list byte -> option (list byte))
    (st : state) (fd : Z) (sid h : nat) (s : PushSession) (so : socket_obj)
    (t0 t1 l0 l1 l2 l3 : byte) (n : Z) (rest : list recv_event) :
  dict_get fd (sessions st) = Some sid ->
  objs st !! sid = Some s ->
  socket s = Some h ->
  data s = Some [] ->
  message_length s = 0 ->
  socks st !! h = Some so ->
  is_closed so = false ->
  inbox so = Segment [t0; t1; l0; l1; l2; l3] :: rest ->
  be_value [t0; t1] <> PUBLISH_MESSAGE ->
  unpack_i [l0; l1; l2; l3] = Ok n ->
  wp (PushClient.select_pass zlib_decompress [fd]) st
    (fun r st' =>
       r = Ok tt /\
       pool st' = pool st /\
       objs st' !! sid = Some (with_data (Some []) (with_message_length n s)) /\
       trace st' = trace st ++ [EvRecv h 6 (mode so);
                                EvLog (LogWarnType (be_value [t0; t1]))]).
Proof.
  destruct st as [ss os ses pl wq un pw nt tr].
  destruct s as [cb mid sec sock dat ml].
  destruct so as [scr wr cl md ib ob].
  cbn [objs socks socket data message_length is_closed inbox mode sessions pool trace].
  intros Hfd Hs -> -> -> Hso -> -> Htype Hn.
  assert (Hlt : (sid < length os)%nat) by (eapply lookup_lt_Some; eauto).
  assert (Hnonneg : 0 <= be_value [t0; t1]).
  { rewrite be_value_2. pose proof (Z_of_byte_range t0).
    pose proof (Z_of_byte_range t1). lia. }
  unfold PUBLISH_MESSAGE in Htype.
  assert (Hty : unpack_H (slice 0 2 ([] ++ [t0; t1; l0; l1; l2; l3])) =
                Ok (be_value [t0; t1])) by reflexivity.
  assert (Hli : unpack_i (slice 2 6 ([] ++ [t0; t1; l0; l1; l2; l3])) = Ok n)
    by exact Hn.
  unfold PushClient.select_pass, PushClient.select_body, _read_msg_header,
    NO_DATA, INCOMPLETE, PUBLISH_MESSAGE.
  repeat wp_read.
  state_simpl.
  split; [reflexivity|]. split; [reflexivity|].
  split; [apply list_lookup_insert_eq; assumption|].
  rewrite <- app_assoc. reflexivity.
Qed.
(** * Further properties *)

(** ** Round trips of the codec *)

Lemma Z_of_byte_of_Z (v : Z) : Z_of_byte (byte_of_Z v) = v mod 256.
Proof.
  unfold Z_of_byte, byte_of_Z.
  assert (Hr : 0 <= v mod 256 < 256) by (apply Z.mod_pos_bound; lia).
  destruct (Byte.of_N (Z.to_N (v mod 256))) as [b|] eqn:E.
  - apply Byte.to_of_N in E. rewrite E. rewrite Z2N.id; lia.
  - apply Byte.of_N_None_iff in E. lia.
Qed.

Lemma be_value_snoc (l : list byte) (b : byte) :
  be_value (l ++ [b]) = be_value l * 256 + Z_of_byte b.
Proof. unfold be_value. rewrite fold_left_app. reflexivity. Qed.

Lemma be_bytes_length (n : nat) (v : Z) : length (be_bytes n v) = n.
Proof.
  revert v. induction n as [|n IH]; intros v; simpl; [reflexivity|].
  rewrite length_app, IH. simpl. lia.
Qed.

Lemma be_value_be_bytes (n : nat) (v : Z) :
  0 <= v < 256 ^ Z.of_nat n -> be_value (be_bytes n v) = v.
Proof.
  revert v. induction n as [|n IH]; intros v Hv.
  - simpl in *. assert (v = 0) by lia. subst. reflexivity.
  - cbn [be_bytes]. rewrite be_value_snoc, Z_of_byte_of_Z.
    rewrite IH.
    + pose proof (Z.div_mod v 256 ltac:(lia)). lia.
    + rewrite Nat2Z.inj_succ, Z.pow_succ_r in Hv by lia.
      split; [apply Z.div_pos; lia|].
      apply Z.div_lt_upper_bound; lia.
Qed.

Lemma be_value_range (l : list byte) : 0 <= be_value l < 256 ^ Z.of_nat (length l).
Proof.
  induction l as [|b l IH] using rev_ind.
  - simpl. unfold be_value. simpl. lia.
  - rewrite be_value_snoc, length_app. simpl length.
    replace (Z.of_nat (length l + 1)) with (Z.succ (Z.of_nat (length l))) by lia.
    rewrite Z.pow_succ_r by lia.
    pose proof (Z_of_byte_range b). lia.
Qed.

Lemma be_bytes_be_value (l : list byte) : be_bytes (length l) (be_value l) = l.
Proof.
  induction l as [|b l IH] using rev_ind; [reflexivity|].
  rewrite length_app, be_value_snoc. simpl length.
  replace (length l + 1)%nat with (S (length l)) by lia.
  cbn [be_bytes].
  pose proof (Z_of_byte_range b) as Hb.
  replace ((be_value l * 256 + Z_of_byte b) / 256) with (be_value l).
  2:{ symmetry. rewrite Z.add_comm, Z.div_add by lia.
      rewrite Z.div_small by lia. lia. }
  rewrite IH. f_equal. f_equal.
  unfold byte_of_Z.
  replace ((be_value l * 256 + Z_of_byte b) mod 256) with (Z_of_byte b).
  2:{ symmetry. rewrite Z.add_comm, Z.mod_add by lia. apply Z.mod_small. lia. }
  unfold Z_of_byte. rewrite N2Z.id. rewrite Byte.of_to_N. reflexivity.
Qed.

Lemma slice_app_l (n : nat) (a b : list byte) :
  length a = n -> slice 0 n (a ++ b) = a.
Proof.
  intros <-. unfold slice. rewrite drop_0, Nat.sub_0_r.
  rewrite take_app_length. reflexivity.
Qed.

Lemma slice_app_r (n m : nat) (a b : list byte) :
  length a = n -> (n <= m)%nat -> slice n m (a ++ b) = slice 0 (m - n) b.
Proof.
  intros <- Hle. unfold slice. rewrite drop_app_length, drop_0.
  rewrite Nat.sub_0_r. reflexivity.
Qed.

Lemma slice_all (l : list byte) : slice 0 (length l) l = l.
Proof. unfold slice. rewrite drop_0, Nat.sub_0_r. apply firstn_all. Qed.


Lemma pack_HL_inv (t n : Z) (hdr : list byte) :
  pack_HL t n = Ok hdr ->
  0 <= t < 2 ^ 16 /\ 0 <= n < 2 ^ 32 /\ hdr = be_bytes 2 t ++ be_bytes 4 n.
Proof.
  unfold pack_HL, pack_H, pack_L.
  destruct (Z.leb_spec 0 t); destruct (Z.ltb_spec t (2 ^ 16));
    destruct (Z.leb_spec 0 n); destruct (Z.ltb_spec n (2 ^ 32));
    cbn; intros [= <-] || discriminate.
  repeat split; lia.
Qed.

(** What [_read_msg_header] decodes from a header packed with ['!HL']. *)
Lemma header_fields (t n : Z) (hdr : list byte) :
  pack_HL t n = Ok hdr ->
  length hdr = 6%nat /\
  unpack_H (slice 0 2 hdr) = Ok t /\
  unpack_i (slice 2 6 hdr) = Ok (if n <? 2 ^ 31 then n else n - 2 ^ 32).
Proof.
  intros H. apply pack_HL_inv in H. destruct H as (Ht & Hn & ->).
  split; [rewrite length_app, !be_bytes_length; reflexivity|].
  split.
  - rewrite slice_app_l by apply be_bytes_length.
    unfold unpack_H. rewrite be_bytes_length. cbn [Nat.eqb].
    rewrite be_value_be_bytes by (change (256 ^ Z.of_nat 2) with (2 ^ 16); lia).
    reflexivity.
  - rewrite (slice_app_r 2 6) by (try apply be_bytes_length; lia).
    change (6 - 2)%nat with 4%nat.
    rewrite <- (be_bytes_length 4 n) at 1. rewrite slice_all.
    unfold unpack_i. rewrite be_bytes_length. cbn [Nat.eqb].
    rewrite be_value_be_bytes by (change (256 ^ Z.of_nat 4) with (2 ^ 32); lia).
    reflexivity.
Qed.

(** X1.  A session is waiting for a header and the next segment on its
    socket is a header packed with ['!HL'] from a type [t] and a length [n]
    below [2^31]: [_read_msg_header] returns [t], sets [message_length] to
    [n], leaves the buffer empty and takes exactly the six bytes of the
    header off the socket. *)
Theorem read_msg_header_round_trip (st : state) (sid h : nat) (s : PushSession)
    (so : socket_obj) (t n : Z) (hdr : list byte) (rest : list recv_event) :
  objs st !! sid = Some s ->
  socket s = Some h ->
  data s = Some [] ->
  socks st !! h = Some so ->
  is_closed so = false ->
  pack_HL t n = Ok hdr ->
  n < 2 ^ 31 ->
  inbox so = Segment hdr :: rest ->
  let run := _read_msg_header sid st in
  fst run = Ok t /\
  objs (snd run) !! sid = Some (with_data (Some []) (with_message_length n s)) /\
  socks (snd run) !! h = Some (with_inbox rest so).
Proof.
  intros Hs Hsock Hdata Hso Hclosed Hpack Hn Hinbox run.
  destruct (header_fields t n hdr Hpack) as (Hlen & Hty & Hli).
  destruct (Z.ltb_spec n (2 ^ 31)); [|lia].
  assert (Hlt : (sid < length (objs st))%nat) by (eapply lookup_lt_Some; eauto).
  assert (Hlth : (h < length (socks st))%nat) by (eapply lookup_lt_Some; eauto).
  change (wp (_read_msg_header sid) st
            (fun r st' => r = Ok t /\
               objs st' !! sid = Some (with_data (Some []) (with_message_length n s)) /\
               socks st' !! h = Some (with_inbox rest so))).
  destruct st as [ss os ses pl wq un pw nt tr].
  destruct s as [cb mid sec sock dat ml].
  destruct so as [scr wr cl md ib ob].
  cbn [objs socks socket data message_length is_closed inbox mode] in *.
  subst sock dat cl ib.
  change (slice 0 2 hdr) with (slice 0 2 ([] ++ hdr)) in Hty.
  change (slice 2 6 hdr) with (slice 2 6 ([] ++ hdr)) in Hli.
  unfold _read_msg_header.
  repeat wp_read.
  state_simpl.
  split; [reflexivity|].
  split; apply list_lookup_insert_eq; assumption.
Qed.

(** The header [00 03 00 00 00 0C] on the session of [connected]. *)
Lemma read_msg_header_round_trip_witness :
  fst (_read_msg_header 0
         (connected accept_all [Segment [x00; x03; x00; x00; x00; x0c]])) = Ok 3.
Proof.
  destruct (read_msg_header_round_trip
              (connected accept_all [Segment [x00; x03; x00; x00; x00; x0c]])
              0 0 _ _ 3 12 [x00; x03; x00; x00; x00; x0c] []
              eq_refl eq_refl eq_refl eq_refl eq_refl eq_refl
              ltac:(lia) eq_refl) as (H & _).
  exact H.
Defined.

(** ** The connection request *)





(** ** More on starting and stopping *)

(** X3.  [start] on a session that already owns a socket raises the
    "already established" exception and does nothing else: no socket is
    created, nothing is connected or closed, the session keeps its socket. *)
Theorem start_refuses_started_session (st : state) (sid : nat) (s : PushSession) :
  objs st !! sid = Some s ->
  socket s <> None ->
  session_start sid st = (Raise PlainException, st).
Proof.
  intros Hs Hsock.
  unfold session_start, bind at 1, get_session. rewrite Hs.
  destruct (secure s);
    unfold SecurePushSession.start, PushSession.start, bind at 1, get_session;
    rewrite Hs; rewrite bool_decide_eq_true_2 by assumption; reflexivity.
Qed.

(** The session of [connected] cannot be started again. *)
Lemma start_refuses_started_session_witness :
  fst (session_start 0 (connected accept_all [])) = Raise PlainException.
Proof.
  rewrite (start_refuses_started_session (connected accept_all []) 0 _ eq_refl
             ltac:(discriminate)).
  reflexivity.
Defined.

(** X4.  [stop] is idempotent: a second [stop] right after the first
    changes nothing and has the outcome of the first, in every state. *)
Theorem stop_idempotent (st : state) (sid : nat) :
  (PushSession.stop sid ;;; PushSession.stop sid) st = PushSession.stop sid st.
Proof.
  destruct st as [ss os ses pl wq un pw nt tr].
  destruct (os !! sid) as [s|] eqn:Hs.
  2:{ assert (E : PushSession.stop sid
                    {| socks := ss; objs := os; sessions := ses; pool := pl;
                       write_queue := wq; username := un; password := pw;
                       net := nt; trace := tr |} =
                  (Fault, {| socks := ss; objs := os; sessions := ses; pool := pl;
                             write_queue := wq; username := un; password := pw;
                             net := nt; trace := tr |})).
      { unfold PushSession.stop, bind, get_session. cbn [objs]. rewrite Hs.
        reflexivity. }
      unfold bind. rewrite E. reflexivity. }
  destruct s as [cb mid sec sock dat ml].
  destruct sock as [h|].
  2:{ assert (E : PushSession.stop sid
                    {| socks := ss; objs := os; sessions := ses; pool := pl;
                       write_queue := wq; username := un; password := pw;
                       net := nt; trace := tr |} =
                  (Ok tt, {| socks := ss; objs := os; sessions := ses; pool := pl;
                             write_queue := wq; username := un; password := pw;
                             net := nt; trace := tr |})).
      { unfold PushSession.stop, bind, get_session. cbn [objs]. rewrite Hs.
        reflexivity. }
      unfold bind. rewrite !E. reflexivity. }
  destruct (ss !! h) as [so|] eqn:Hso.
  2:{ assert (E : PushSession.stop sid
                    {| socks := ss; objs := os; sessions := ses; pool := pl;
                       write_queue := wq; username := un; password := pw;
                       net := nt; trace := tr |} =
                  (Fault, {| socks := ss; objs := os; sessions := ses; pool := pl;
                             write_queue := wq; username := un; password := pw;
                             net := nt; trace := tr |})).
      { unfold PushSession.stop, sock_close, bind, get_session, get_sock.
        cbn [objs]. rewrite Hs. cbn [socket socks]. rewrite Hso. reflexivity. }
      unfold bind. rewrite E. reflexivity. }
  assert (Hlt : (sid < length os)%nat) by (eapply lookup_lt_Some; eauto).
  unfold bind at 1.
  rewrite (stop_run {| socks := ss; objs := os; sessions := ses; pool := pl;
                       write_queue := wq; username := un; password := pw;
                       net := nt; trace := tr |} sid h _ so Hs eq_refl Hso).
  cbv beta iota.
  unfold PushSession.stop, bind, get_session.
  cbn [set_objs set_socks emit socks objs sessions pool write_queue username
       password net trace].
  rewrite list_lookup_insert_eq by assumption. reflexivity.
Qed.

Lemma unpack_H_slice (a : nat) (l : list byte) :
  (a + 2 <= length l)%nat ->
  unpack_H (slice a (a + 2) l) = Ok (be_value (slice a (a + 2) l)).
Proof.
  intros Hl. unfold unpack_H. rewrite slice_length by lia.
  replace (a + 2 - a)%nat with 2%nat by lia. reflexivity.
Qed.

Ltac wp_run :=
  lazymatch goal with
  | |- wp (sock_recv _ _) _ _ => state_simpl; unfold sock_recv
  | |- _ => wp_read
  end;
  try match goal with
      | H : Segment _ :: _ = Segment _ :: _ |- _ => injection H as ? ?; subst
      end.

(** X5.  On a network that does its part (the connection is made, the
    request is sent, and a first segment of the answer arrives), [start]
    returns exactly when that segment holds at least ten bytes with type
    [CONNECTION_RESPONSE] in bytes 0-2 and status [STATUS_OK] in bytes 6-8,
    and raises [PushException] otherwise: an answer that arrives in a
    shorter first segment is refused.  When [start] returns, the request
    has been sent once and what followed the ten bytes of the answer in the
    segment is still on the socket for the reader. *)
Theorem handshake_acceptance (st : state) (sid : nat) (s : PushSession)
    (cs : conn_script) (rest : list (option conn_script))
    (request response : list byte) (later : list recv_event) :
  objs st !! sid = Some s ->
  socket s = None ->
  net st = Some cs :: rest ->
  (secure s <> None -> cs_wrap_ok cs = true) ->
  cs_connect_ok cs = true ->
  cs_send_ok cs = true ->
  PushSession.connection_request (username st) (password st) (monitor_id s) =
    Ok request ->
  cs_inbox cs = Segment response :: later ->
  let answer := take 10 response in
  let accepted := length answer = 10%nat /\
                  be_value (slice 0 2 answer) = CONNECTION_RESPONSE /\
                  be_value (slice 6 8 answer) = STATUS_OK in
  let run := session_start sid st in
  (accepted ->
   fst run = Ok tt /\
   exists so, socks (snd run) !! length (socks st) = Some so /\
              outbox so = [request] /\
              inbox so = match drop 10 response with
                         | [] => later
                         | _ => Segment (drop 10 response) :: later
                         end) /\
  (~ accepted -> fst run = Raise PushException).
Proof.
  intros Hs Hsock Hnet Hwrap Hconn Hsend Hreq Hinbox answer accepted run.
  assert (Hlt : (sid < length (objs st))%nat) by (eapply lookup_lt_Some; eauto).
  change (wp (session_start sid) st
            (fun r st' =>
               (accepted ->
                r = Ok tt /\
                exists so, socks st' !! length (socks st) = Some so /\
                           outbox so = [request] /\
                           inbox so = match drop 10 response with
                                      | [] => later
                                      | _ => Segment (drop 10 response) :: later
                                      end) /\
               (~ accepted -> r = Raise PushException))).
  destruct st as [ss os ses pl wq un pw nt tr].
  destruct s as [cb mid sec sock dat ml].
  cbn [objs socks socket net username password monitor_id secure] in *.
  subst sock nt.
  assert (Hdec : length answer = 10%nat ->
                 unpack_H (slice 0 2 answer) = Ok (be_value (slice 0 2 answer)) /\
                 unpack_H (slice 6 8 answer) = Ok (be_value (slice 6 8 answer))).
  { intros Hl. split; [apply (unpack_H_slice 0) | apply (unpack_H_slice 6)]; lia. }
  match goal with |- wp _ _ ?P => set (Q := P) end.
  destruct (Nat.eq_dec (length answer) 10%nat) as [Hl | Hl];
    [destruct (Hdec Hl) as [Hty Hst] | clear Hdec];
    subst answer;
    (destruct sec as [ca|]; [specialize (Hwrap ltac:(discriminate))|]).
  all: repeat wp_run.
  all: subst Q accepted; cbv beta; cbn [socks].
  all: try match goal with
           | H1 : PushSession.connection_request ?u ?p ?m = Ok ?a,
             H2 : PushSession.connection_request ?u ?p ?m = Ok ?b |- _ =>
               assert (a = b) by congruence; subst
           end.
  all: try congruence.
  all: repeat match goal with
              | H : (_ =? _)%Z = true |- _ => apply Z.eqb_eq in H
              | H : (_ =? _)%Z = false |- _ => apply Z.eqb_neq in H
              | H : (_ =? _)%nat = true |- _ => apply Nat.eqb_eq in H
              | H : (_ =? _)%nat = false |- _ => apply Nat.eqb_neq in H
              end.
  all: split; [intros (H1 & H2 & H3) | intros Hn].
  all: first [ solve [split; [reflexivity|];
                      eexists; split; [apply lookup_snoc|]; split; reflexivity]
             | contradiction
             | congruence
             | reflexivity
             | solve [exfalso; apply Hn; repeat split; assumption] ].
Qed.

(** The server of [connection] answers 200 to the first session of a new
    client. *)
Lemma handshake_acceptance_witness :
  let st := snd (PushSession.__init__ accept_all 9001 None
                   (PushClient.__init__ [x75] [x70] 1 [Some (connection [])])) in
  fst (session_start 0 st) = Ok tt.
Proof.
  intros st.
  destruct (handshake_acceptance st 0 _ (connection []) [] _ handshake_ok []
              eq_refl eq_refl eq_refl ltac:(intros H; exfalso; apply H; reflexivity)
              eq_refl eq_refl eq_refl eq_refl) as [Hok _].
  apply Hok. repeat split.
Defined.





(** ** More on the callback worker *)

(** X8.  A pool built without a write queue (the default of
    [CallbackWorkerPool]) still calls the callback of every block, but never
    acknowledges: whatever the callback returns, the turn of the worker
    ends normally and the client's write queue is unchanged. *)
Theorem worker_without_write_queue (st : state) (sid : nat) (B : Z)
    (payload : list byte) (rest : list (nat * Z * list byte)) (s : PushSession) :
  items (pool_queue (pool st)) = (sid, B, payload) :: rest ->
  objs st !! sid = Some s ->
  pool_write_queue (pool st) = false ->
  let run := CallbackWorkerPool.__consume_queue st in
  fst run = Ok tt /\
  write_queue (snd run) = write_queue st /\
  items (pool_queue (pool (snd run))) = rest /\
  exists log,
    trace (snd run) =
      trace st ++ EvCall sid payload :: EvReturn sid (callback s payload) :: log /\
    (forall sock bs, ~ In (EvAck sock bs) log).
Proof.
  destruct st as [ss os ses [pwq pq psz] wq un pw nt tr]; cbn.
  intros Hq Hs ->.
  unfold CallbackWorkerPool.__consume_queue, CallbackWorkerPool.queue_get,
    CallbackWorkerPool.call_callback, bind, try_except, get_session, modify,
    gets, when, ret, raise, Queue_get.
  cbn. rewrite Hq. cbn. rewrite Hs. cbn.
  destruct (callback s payload) as [[|]|]; cbn; rewrite <- !app_assoc; cbn.
  - repeat split. exists []. split; [reflexivity|]. intros ? ? [].
  - repeat split. exists []. split; [reflexivity|]. intros ? ? [].
  - repeat split. eexists. split; [reflexivity|].
    intros ? ? [H|[]]. discriminate.
Qed.

(** A pool without a write queue, holding block 42 of the session of
    [connected]. *)
Lemma worker_without_write_queue_witness :
  let st := set_pool {| pool_write_queue := false;
                        pool_queue := {| maxsize := 1;
                                         items := [(0%nat, 42, [x68; x69])] |};
                        pool_size := 1 |}
              (connected accept_all []) in
  write_queue (snd (CallbackWorkerPool.__consume_queue st)) = write_queue st.
Proof.
  intros st.
  destruct (worker_without_write_queue st 0 42 [x68; x69] [] _
              eq_refl eq_refl eq_refl) as (_ & H & _).
  exact H.
Defined.


(** ** What the threads leave alone *)

Section Frame.

Context {T : Type} (f : state -> T).
Hypothesis Hsocks : forall g st, f (set_socks g st) = f st.
Hypothesis Hobjs : forall g st, f (set_objs g st) = f st.
Hypothesis Hsessions : forall g st, f (set_sessions g st) = f st.
Hypothesis Hqc : forall sid block_id payload,
  keeps f (CallbackWorkerPool.queue_callback sid block_id payload).
Hypothesis Hwq : forall q st, f (set_write_queue q st) = f st.
Hypothesis Hnet : forall n st, f (set_net n st) = f st.
Hypothesis Hemit : forall e st, f (emit e st) = f st.

Lemma keeps_ret {A} (a : A) : keeps f (ret a).
Proof. intros st. reflexivity. Qed.

Lemma keeps_raise {A} (e : exn) : keeps f (@raise A e).
Proof. intros st. reflexivity. Qed.

Lemma keeps_lift {A} (r : result A) : keeps f (lift r).
Proof. intros st. reflexivity. Qed.

Lemma keeps_gets {A} (g : state -> A) : keeps f (gets g).
Proof. intros st. reflexivity. Qed.

Lemma keeps_const {A} (r : result A) : keeps f (fun st => (r, st)).
Proof. intros st. reflexivity. Qed.

Lemma keeps_modify (g : state -> state) :
  (forall st, f (g st) = f st) -> keeps f (modify g).
Proof. intros Hg st. apply Hg. Qed.

Lemma keeps_bind {A C} (m : M A) (k : A -> M C) :
  keeps f m -> (forall a, keeps f (k a)) -> keeps f (bind m k).
Proof.
  intros Hm Hk st. unfold bind. specialize (Hm st).
  destruct (m st) as [[a|e| |] st']; cbn in *; try exact Hm.
  rewrite (Hk a st'). exact Hm.
Qed.

Lemma keeps_try_except {A} (m : M A) (h : exn -> option (M A)) :
  keeps f m -> (forall e hd, h e = Some hd -> keeps f hd) ->
  keeps f (try_except m h).
Proof.
  intros Hm Hh st. unfold try_except. specialize (Hm st).
  destruct (m st) as [[a|e| |] st']; cbn in *; try exact Hm.
  destruct (h e) as [hd|] eqn:E; [|exact Hm].
  rewrite (Hh e hd E st'). exact Hm.
Qed.

Lemma keeps_try_finally {A} (m : M A) (fin : M unit) :
  keeps f m -> keeps f fin -> keeps f (try_finally m fin).
Proof.
  intros Hm Hfin st. unfold try_finally. specialize (Hm st).
  destruct (m st) as [[a|e| |] st']; cbn in *; try exact Hm;
    specialize (Hfin st'); destruct (fin st') as [[[]|e'| |] st'']; cbn in *;
    congruence.
Qed.

Lemma keeps_for_each {A} (l : list A) (body : A -> M unit) :
  (forall a, keeps f (body a)) -> keeps f (for_each l body).
Proof.
  intros Hb. induction l as [|a l IH]; cbn [for_each].
  - apply keeps_ret.
  - apply keeps_bind; [apply Hb | intros _; exact IH].
Qed.

Ltac keeps_step :=
  lazymatch goal with
  | |- keeps _ (bind _ _) => apply keeps_bind; [|intros ?]
  | |- keeps _ (try_except _ _) =>
      apply keeps_try_except;
      [|let e := fresh "e" in
        let hd := fresh "hd" in
        let E := fresh "E" in
        intros e hd E; destruct e; inversion E; subst; clear E]
  | |- keeps _ (try_finally _ _) => apply keeps_try_finally
  | |- keeps _ (for_each _ _) => apply keeps_for_each; intros ?
  | |- keeps _ (ret _) => apply keeps_ret
  | |- keeps _ (raise _) => apply keeps_raise
  | |- keeps _ (lift _) => apply keeps_lift
  | |- keeps _ (gets _) => apply keeps_gets
  | |- keeps _ (when _ _) => unfold when
  | |- keeps _ (modify _) =>
      apply keeps_modify; intros ?;
      rewrite ?Hsocks, ?Hobjs, ?Hsessions, ?Hwq, ?Hnet, ?Hemit; reflexivity
  | |- keeps _ (if ?b then _ else _) => destruct b
  | |- keeps _ (match ?x with _ => _ end) => destruct x
  | |- keeps _ (fun st => (_, st)) => apply keeps_const
  | |- _ => solve [eauto]
  end.

Lemma keeps_get_session sid : keeps f (get_session sid).
Proof. intros st. unfold get_session. destruct (objs st !! sid); reflexivity. Qed.

Lemma keeps_get_sock h : keeps f (get_sock h).
Proof. intros st. unfold get_sock. destruct (socks st !! h); reflexivity. Qed.

Lemma keeps_deref s : keeps f (deref s).
Proof. unfold deref. repeat keeps_step. Qed.

Hint Resolve keeps_get_session keeps_get_sock keeps_deref : core.

Lemma keeps_update_session sid g : keeps f (update_session sid g).
Proof using Hobjs. unfold update_session. repeat keeps_step. Qed.

Lemma keeps_put_sock h so : keeps f (put_sock h so).
Proof using Hsocks. unfold put_sock. repeat keeps_step. Qed.

Hint Resolve keeps_update_session keeps_put_sock : core.

Lemma keeps_socket_socket : keeps f socket_socket.
Proof using Hsocks Hnet.
  intros st. unfold socket_socket.
  destruct (net st) as [|[cs|] rest]; cbn [snd]; rewrite ?Hnet, ?Hsocks; reflexivity.
Qed.

Lemma keeps_ssl_wrap_socket h ca : keeps f (ssl_wrap_socket h ca).
Proof using Hsocks. unfold ssl_wrap_socket. repeat keeps_step. Qed.

Lemma keeps_sock_connect h port : keeps f (sock_connect h port).
Proof using Hemit. unfold sock_connect. repeat keeps_step. Qed.

Lemma keeps_sock_setblocking h flag : keeps f (sock_setblocking h flag).
Proof using Hemit Hsocks. unfold sock_setblocking. repeat keeps_step. Qed.

Lemma keeps_sock_settimeout h t : keeps f (sock_settimeout h t).
Proof using Hemit Hsocks. unfold sock_settimeout. repeat keeps_step. Qed.

Lemma keeps_sock_send h bs : keeps f (sock_send h bs).
Proof using Hemit Hsocks. unfold sock_send. repeat keeps_step. Qed.

Lemma keeps_sock_recv h n : keeps f (sock_recv h n).
Proof using Hemit Hsocks. unfold sock_recv. repeat keeps_step. Qed.

Lemma keeps_sock_close h : keeps f (sock_close h).
Proof using Hemit Hsocks. unfold sock_close. repeat keeps_step. Qed.

Lemma keeps_sock_fileno h : keeps f (sock_fileno h).
Proof. unfold sock_fileno. repeat keeps_step. Qed.

Hint Resolve keeps_socket_socket keeps_ssl_wrap_socket keeps_sock_connect
  keeps_sock_setblocking keeps_sock_settimeout keeps_sock_send keeps_sock_recv
  keeps_sock_close keeps_sock_fileno : core.

Lemma keeps_py_len d : keeps f (py_len d).
Proof. unfold py_len. repeat keeps_step. Qed.

Lemma keeps_py_slice a b d : keeps f (py_slice a b d).
Proof. unfold py_slice. repeat keeps_step. Qed.

Lemma keeps_py_from a d : keeps f (py_from a d).
Proof. unfold py_from. repeat keeps_step. Qed.

Hint Resolve keeps_py_len keeps_py_slice keeps_py_from : core.

Lemma keeps_data_iadd sid more : keeps f (data_iadd sid more).
Proof using Hobjs. unfold data_iadd. repeat keeps_step. Qed.

Lemma keeps_sessions_getitem k : keeps f (sessions_getitem k).
Proof.
  intros st. unfold sessions_getitem. destruct (dict_get k (sessions st)); reflexivity.
Qed.

Lemma keeps_sessions_delitem k : keeps f (sessions_delitem k).
Proof using Hsessions.
  intros st. unfold sessions_delitem.
  destruct (dict_del k (sessions st)); cbn [snd]; rewrite ?Hsessions; reflexivity.
Qed.

Lemma keeps_sessions_setitem k v : keeps f (sessions_setitem k v).
Proof using Hsessions. unfold sessions_setitem. repeat keeps_step. Qed.

Hint Resolve keeps_data_iadd keeps_sessions_getitem keeps_sessions_delitem
  keeps_sessions_setitem : core.

Lemma keeps_read_msg_header sid : keeps f (_read_msg_header sid).
Proof using Hobjs Hsocks Hemit. unfold _read_msg_header. repeat keeps_step. Qed.

Lemma keeps_read_msg sid : keeps f (_read_msg sid).
Proof using Hobjs Hsocks Hemit. unfold _read_msg. repeat keeps_step. Qed.

Lemma keeps_send_connection_request sid :
  keeps f (PushSession.send_connection_request sid).
Proof using Hobjs Hsocks Hemit.
  unfold PushSession.send_connection_request. repeat keeps_step.
Qed.

Hint Resolve keeps_read_msg_header keeps_read_msg keeps_send_connection_request : core.

Lemma keeps_start sid : keeps f (PushSession.start sid).
Proof using Hobjs Hsocks Hemit Hnet. unfold PushSession.start. repeat keeps_step. Qed.

Lemma keeps_secure_start sid : keeps f (SecurePushSession.start sid).
Proof using Hobjs Hsocks Hemit Hnet.
  unfold SecurePushSession.start. repeat keeps_step.
Qed.

Hint Resolve keeps_start keeps_secure_start : core.

Lemma keeps_session_start sid : keeps f (session_start sid).
Proof using Hobjs Hsocks Hemit Hnet. unfold session_start. repeat keeps_step. Qed.

Lemma keeps_stop sid : keeps f (PushSession.stop sid).
Proof using Hobjs Hsocks Hemit. unfold PushSession.stop. repeat keeps_step. Qed.

Hint Resolve keeps_session_start keeps_stop : core.

Lemma keeps_restart_session sid : keeps f (PushClient.__restart_session sid).
Proof using Hobjs Hsocks Hemit Hnet Hsessions.
  unfold PushClient.__restart_session. repeat keeps_step.
Qed.

Lemma keeps_for_keys used keys body :
  (forall k, keeps f (body k)) -> keeps f (PushClient.for_keys used keys body).
Proof.
  intros Hb. induction keys as [|k keys IH]; cbn [PushClient.for_keys];
    repeat keeps_step.
Qed.

Lemma keeps_clean_dead_sessions : keeps f PushClient.__clean_dead_sessions.
Proof using Hsessions.
  unfold PushClient.__clean_dead_sessions.
  apply keeps_bind; [apply keeps_gets|]. intros d.
  apply keeps_for_keys. intros k. repeat keeps_step.
Qed.

Hint Resolve keeps_restart_session keeps_clean_dead_sessions Hqc : core.

Lemma keeps_select_body zlib sock : keeps f (PushClient.select_body zlib sock).
Proof using Hobjs Hsocks Hemit Hnet Hsessions Hqc.
  unfold PushClient.select_body. repeat keeps_step.
Qed.

Hint Resolve keeps_select_body : core.

Lemma keeps_select_pass zlib ready : keeps f (PushClient.select_pass zlib ready).
Proof using Hobjs Hsocks Hemit Hnet Hsessions Hqc.
  unfold PushClient.select_pass. repeat keeps_step.
Qed.

Hint Resolve keeps_select_pass : core.

Lemma keeps_select_rounds zlib rounds : keeps f (PushClient.select_rounds zlib rounds).
Proof using Hobjs Hsocks Hemit Hnet Hsessions Hqc.
  induction rounds as [|r rounds IH]; cbn [PushClient.select_rounds];
    repeat keeps_step.
Qed.

Hint Resolve keeps_select_rounds : core.

Lemma keeps_select zlib rounds : keeps f (PushClient.__select zlib rounds).
Proof using Hobjs Hsocks Hemit Hnet Hsessions Hqc.
  unfold PushClient.__select. repeat keeps_step.
Qed.

Lemma keeps_after_write_queue_get (item : option (option nat * list byte)) :
  keeps f (match item with
           | None => ret tt
           | Some (sock, data) => let! h := deref sock in sock_send h data
           end).
Proof using Hsocks Hemit. repeat keeps_step. Qed.

Lemma keeps_write_queue_get : keeps f PushClient.write_queue_get.
Proof using Hwq.
  intros st. unfold PushClient.write_queue_get.
  destruct (Queue_get _) as [[item q]|]; cbn [snd]; rewrite ?Hwq; reflexivity.
Qed.

Hint Resolve keeps_write_queue_get : core.

Lemma keeps_writer_turn : keeps f PushClient.writer_turn.
Proof using Hsocks Hemit Hsessions Hwq.
  unfold PushClient.writer_turn. repeat keeps_step.
Qed.

Hint Resolve keeps_writer_turn : core.

Lemma keeps_writer turns : keeps f (PushClient.__writer turns).
Proof using Hsocks Hemit Hsessions Hwq.
  induction turns as [|n IH]; cbn [PushClient.__writer]; repeat keeps_step.
Qed.

End Frame.

Lemma queue_callback_keeps_write_queue (sid : nat) (block_id : Z) (payload : list byte) :
  keeps write_queue (CallbackWorkerPool.queue_callback sid block_id payload).
Proof.
  intros st. unfold CallbackWorkerPool.queue_callback.
  destruct (Queue_put _ _); reflexivity.
Qed.

Lemma queue_callback_keeps_pool_write_queue (sid : nat) (block_id : Z)
    (payload : list byte) :
  keeps (fun st => pool_write_queue (pool st))
    (CallbackWorkerPool.queue_callback sid block_id payload).
Proof.
  intros st. unfold CallbackWorkerPool.queue_callback.
  destruct (Queue_put _ _); reflexivity.
Qed.

(** X10.  The reader never puts anything on the write queue and never
    takes anything off it: whatever arrives on the sockets, whatever
    restarts and errors happen, and through the final stop of the sessions,
    [__select] leaves the write queue as it found it.  Only the workers
    produce acknowledgements. *)
Theorem reader_leaves_write_queue_alone
    (zlib_decompress : list byte -> option (list byte))
    (rounds : list (list Z)) (st : state) :
  write_queue (snd (PushClient.__select zlib_decompress rounds st)) = write_queue st /\
  forall inputready,
    write_queue (snd (PushClient.select_pass zlib_decompress inputready st)) =
    write_queue st.
Proof.
  split.
  - apply (keeps_select write_queue); try reflexivity.
    apply queue_callback_keeps_write_queue.
  - intros inputready.
    apply (keeps_select_pass write_queue); try reflexivity.
    apply queue_callback_keeps_write_queue.
Qed.

(** X11.  The writer never changes a session object, the callback pool or
    the connections to come, in any state and for any number of turns: it
    only takes from the write queue, sends, and (on a bad file descriptor)
    deletes from the dictionary. *)
Theorem writer_leaves_sessions_alone (turns : nat) (st : state) :
  let st' := snd (PushClient.__writer turns st) in
  objs st' = objs st /\ pool st' = pool st /\ net st' = net st.
Proof.
  cbv zeta. repeat split.
  - apply (keeps_writer objs); reflexivity.
  - apply (keeps_writer pool); reflexivity.
  - apply (keeps_writer net); reflexivity.
Qed.

(** ** The writer *)

Lemma writer_turn_after_get (st : state) (item : option nat * list byte)
    (rest : list (option nat * list byte)) :
  items (write_queue st) = item :: rest ->
  PushClient.writer_turn st =
  try_except
    (let! h := deref (fst item) in sock_send h (snd item))
    (fun err =>
       match err with
       | SocketError errno =>
           Some (when (errno =? EBADF) PushClient.__clean_dead_sessions)
       | SocketTimeout | SSLError => Some (ret tt)
       | _ => None
       end)
    (set_write_queue {| maxsize := maxsize (write_queue st); items := rest |} st).
Proof.
  intros Hq. unfold PushClient.writer_turn, try_except, bind at 1,
    PushClient.write_queue_get, Queue_get.
  rewrite Hq. destruct item as [sock bs]. reflexivity.
Qed.

(** What a turn of the writer does with a message for an open socket. *)
Lemma writer_turn_send_run (st : state) (h : nat) (bs : list byte)
    (rest : list (option nat * list byte)) (so : socket_obj) :
  items (write_queue st) = (Some h, bs) :: rest ->
  socks st !! h = Some so ->
  is_closed so = false ->
  cs_send_ok (script so) = true ->
  PushClient.writer_turn st =
  (Ok tt,
   set_socks (fun l => <[h := with_outbox (outbox so ++ [bs]) so]> l)
     (emit (EvSend h bs (mode so))
        (set_write_queue {| maxsize := maxsize (write_queue st); items := rest |} st))).
Proof.
  intros Hq Hso Hclosed Hsend.
  rewrite (writer_turn_after_get st _ rest Hq). cbn [fst snd].
  destruct st as [ss os ses pl wq un pw nt tr]. cbn in Hso |- *.
  cbv beta delta [try_except bind deref ret sock_send get_sock modify put_sock raise when].
  cbn. rewrite Hso. cbn.
  rewrite Hclosed, Hsend. cbn. reflexivity.
Qed.

(** X12.  With nothing on the write queue a turn of the writer changes
    nothing.  Otherwise it takes the oldest message off the queue and, when
    the socket the message is addressed to is open and accepts it, sends
    exactly that message on exactly that socket: the other sockets, the
    sessions and the rest of the queue are as they were. *)
Theorem writer_turn_sends_oldest (st : state) :
  (items (write_queue st) = [] -> PushClient.writer_turn st = (Ok tt, st)) /\
  (forall h bs rest so,
     items (write_queue st) = (Some h, bs) :: rest ->
     socks st !! h = Some so ->
     is_closed so = false ->
     cs_send_ok (script so) = true ->
     let run := PushClient.writer_turn st in
     fst run = Ok tt /\
     items (write_queue (snd run)) = rest /\
     socks (snd run) = <[h := with_outbox (outbox so ++ [bs]) so]> (socks st) /\
     objs (snd run) = objs st /\
     sessions (snd run) = sessions st).
Proof.
  split.
  - intros Hq. unfold PushClient.writer_turn, try_except, bind,
      PushClient.write_queue_get, Queue_get. rewrite Hq. reflexivity.
  - intros h bs rest so Hq Hso Hclosed Hsend run. subst run.
    rewrite (writer_turn_send_run st h bs rest so Hq Hso Hclosed Hsend).
    repeat split.
Qed.

(** The acknowledgement of block 42 on the write queue of [connected]. *)
Lemma writer_turn_sends_oldest_witness :
  let st := set_write_queue {| maxsize := 0;
                               items := [(Some 0%nat, ack_message 42)] |}
              (connected accept_all []) in
  items (write_queue (snd (PushClient.writer_turn st))) = [].
Proof.
  intros st.
  destruct (writer_turn_sends_oldest st) as [_ H].
  destruct (H 0%nat (ack_message 42) [] _ eq_refl eq_refl eq_refl eq_refl)
    as (_ & Hitems & _).
  exact Hitems.
Defined.

Lemma handler_keeps_write_queue (item : option nat * list byte) :
  keeps write_queue
    (try_except
       (let! h := deref (fst item) in sock_send h (snd item))
       (fun err =>
          match err with
          | SocketError errno =>
              Some (when (errno =? EBADF) PushClient.__clean_dead_sessions)
          | SocketTimeout | SSLError => Some (ret tt)
          | _ => None
          end)).
Proof.
  apply keeps_try_except.
  - apply keeps_bind; [apply keeps_deref|].
    intros h. apply keeps_sock_send; reflexivity.
  - intros e hd E. destruct e; inversion E; subst; try apply keeps_ret.
    unfold when. destruct (errno =? EBADF); [|apply keeps_ret].
    apply keeps_clean_dead_sessions. reflexivity.
Qed.

(** X13.  A message that cannot be written is not written later: whatever
    a turn of the writer does with the oldest message, the message is off
    the queue afterwards.  A message addressed to no socket (its session
    was stopped before the acknowledgement was queued) makes the turn raise
    [AttributeError], which nothing in [__writer] catches; a socket that
    refuses the message leaves the turn normal and nothing sent; on a
    closed socket the turn calls [__clean_dead_sessions], so it returns
    when every session of the dictionary owns a socket and raises
    [RuntimeError] when one does not. *)
Theorem writer_turn_drops_message (st : state) (sock : option nat)
    (bs : list byte) (rest : list (option nat * list byte)) :
  items (write_queue st) = (sock, bs) :: rest ->
  let run := PushClient.writer_turn st in
  items (write_queue (snd run)) = rest /\
  (sock = None -> fst run = Raise AttributeError /\ socks (snd run) = socks st) /\
  (forall h so,
     sock = Some h -> socks st !! h = Some so ->
     is_closed so = false -> cs_send_ok (script so) = false ->
     fst run = Ok tt /\ socks (snd run) = socks st) /\
  (forall h so,
     sock = Some h -> socks st !! h = Some so -> is_closed so = true ->
     ((forall k sid, In (k, sid) (sessions st) ->
                     exists s h', objs st !! sid = Some s /\ socket s = Some h') ->
      fst run = Ok tt /\ sessions (snd run) = sessions st) /\
     ((forall k sid, In (k, sid) (sessions st) -> is_Some (objs st !! sid)) ->
      (exists k sid s, In (k, sid) (sessions st) /\
                       dict_get k (sessions st) = Some sid /\
                       objs st !! sid = Some s /\ socket s = None) ->
      fst run = Raise RuntimeError)).
Proof.
  intros Hq run. subst run.
  rewrite (writer_turn_after_get st _ rest Hq).
  split.
  { rewrite (handler_keeps_write_queue (sock, bs)). reflexivity. }
  cbn [fst snd].
  split.
  { intros ->. split; reflexivity. }
  split.
  { intros h so -> Hso Hclosed Hsend.
    destruct st as [ss os ses pl wq un pw nt tr]. cbn in Hso |- *.
    cbv beta delta [try_except bind deref ret sock_send get_sock modify put_sock raise when].
    cbn. rewrite Hso. cbn.
    rewrite Hclosed, Hsend. cbn. split; reflexivity. }
  intros h so -> Hso Hclosed.
  set (st1 := emit (EvSend h bs (mode so))
                (set_write_queue {| maxsize := maxsize (write_queue st);
                                    items := rest |} st)).
  assert (E : try_except
                (let! h0 := deref (Some h) in sock_send h0 bs)
                (fun err =>
                   match err with
                   | SocketError errno =>
                       Some (when (errno =? EBADF) PushClient.__clean_dead_sessions)
                   | SocketTimeout | SSLError => Some (ret tt)
                   | _ => None
                   end)
                (set_write_queue {| maxsize := maxsize (write_queue st);
                                    items := rest |} st) =
              PushClient.__clean_dead_sessions st1).
  { subst st1. destruct st as [ss os ses pl wq un pw nt tr]. cbn in Hso |- *.
    cbv beta delta [try_except bind deref ret sock_send get_sock modify put_sock raise when].
    cbn. rewrite Hso. cbn.
    rewrite Hclosed. cbn. reflexivity. }
  rewrite E. split.
  - intros Halive.
    rewrite (clean_dead_sessions_all_alive st1) by exact Halive.
    split; reflexivity.
  - intros Hvalid Hdead.
    apply (clean_dead_sessions_raises_when_dead st1); assumption.
Qed.

(** An acknowledgement addressed to no socket, on the write queue of
    [connected]. *)
Lemma writer_turn_drops_message_witness :
  let st := set_write_queue {| maxsize := 0;
                               items := [(None, ack_message 42)] |}
              (connected accept_all []) in
  fst (PushClient.writer_turn st) = Raise AttributeError.
Proof.
  intros st.
  destruct (writer_turn_drops_message st None (ack_message 42) [] eq_refl)
    as (_ & H & _).
  exact (proj1 (H eq_refl)).
Defined.

(** ** Cleaning the dictionary *)

Lemma dict_del_sublist (k : Z) (d d' : list (Z * nat)) :
  dict_del k d = Some d' -> sublist d' d.
Proof.
  revert d'. induction d as [|[k' v] d IH]; intros d'; simpl; [discriminate|].
  destruct (k' =? k).
  - intros [= <-]. apply sublist_cons. reflexivity.
  - destruct (dict_del k d) as [r|]; [|discriminate].
    intros [= <-]. apply sublist_skip. apply IH. reflexivity.
Qed.

Lemma clean_body_sublist (k : Z) (st : state) :
  sublist
    (sessions (snd ((let! session := sessions_getitem k in
                     let! s := get_session session in
                     when (bool_decide (socket s = None)) (sessions_delitem k)) st)))
    (sessions st).
Proof.
  unfold bind, sessions_getitem, get_session, when, sessions_delitem, ret.
  destruct (dict_get k (sessions st)) as [sid|]; [|reflexivity].
  destruct (objs st !! sid) as [s|]; [|reflexivity].
  destruct (bool_decide (socket s = None)); [|reflexivity].
  destruct (dict_del k (sessions st)) as [d'|] eqn:E; [|reflexivity].
  destruct st; cbn. eapply dict_del_sublist; eauto.
Qed.

Lemma for_keys_sublist (used : nat) (keys : list Z) (body : Z -> M unit) :
  (forall k st, sublist (sessions (snd (body k st))) (sessions st)) ->
  forall st, sublist (sessions (snd (PushClient.for_keys used keys body st)))
                     (sessions st).
Proof.
  intros Hbody. induction keys as [|k keys IH]; intros st;
    cbn [PushClient.for_keys]; unfold bind at 1, gets;
    destruct (negb (length (sessions st) =? used)%nat); try reflexivity.
  unfold bind. specialize (Hbody k st).
  destruct (body k st) as [[[]|e| |] st1]; cbn [snd] in *; try exact Hbody.
  etransitivity; [apply IH | exact Hbody].
Qed.

(** X14.  [__clean_dead_sessions] only ever deletes: in every state, and
    whether it returns or raises, the dictionary it leaves is a sub-list of
    the one it found, in the same order, and no session object and no socket
    is touched.  When every session of the dictionary owns a socket it
    returns and changes nothing at all. *)
Theorem clean_dead_sessions_only_deletes (st : state) :
  let run := PushClient.__clean_dead_sessions st in
  sublist (sessions (snd run)) (sessions st) /\
  objs (snd run) = objs st /\
  socks (snd run) = socks st /\
  ((forall k sid, In (k, sid) (sessions st) ->
                  exists s h, objs st !! sid = Some s /\ socket s = Some h) ->
   run = (Ok tt, st)).
Proof.
  cbv zeta. split; [|split; [|split]].
  - unfold PushClient.__clean_dead_sessions, bind at 1, gets.
    apply for_keys_sublist. intros k st'. apply clean_body_sublist.
  - apply (keeps_clean_dead_sessions objs). reflexivity.
  - apply (keeps_clean_dead_sessions socks). reflexivity.
  - apply clean_dead_sessions_all_alive.
Qed.

(** The session of [connected] owns its socket. *)
Lemma clean_dead_sessions_only_deletes_witness :
  PushClient.__clean_dead_sessions (connected accept_all []) =
  (Ok tt, connected accept_all []).
Proof.
  destruct (clean_dead_sessions_only_deletes (connected accept_all []))
    as (_ & _ & _ & H).
  apply H. intros k sid [[= <- <-]|[]]. do 2 eexists. split; reflexivity.
Defined.

(** ** Bodies that are not dispatched *)

Lemma wp_queue_callback_full (session : nat) (block_id : Z) (payload : list byte)
    st (Q : result unit -> state -> Prop) :
  Queue_full (pool_queue (pool st)) = true ->
  Q Blocked st ->
  wp (CallbackWorkerPool.queue_callback session block_id payload) st Q.
Proof.
  unfold wp, CallbackWorkerPool.queue_callback, Queue_put. intros ->. exact id.
Qed.

Ltac wp_drop :=
  lazymatch goal with
  | H : unpack_H ?b = Raise _ |- match unpack_H ?b with _ => _ end => rewrite H
  | H : unpack_B ?b = Raise _ |- match unpack_B ?b with _ => _ end => rewrite H
  | |- wp (CallbackWorkerPool.queue_callback _ _ _) _ _ =>
      first [ eapply wp_queue_callback; [state_simpl; eassumption|]
            | eapply wp_queue_callback_full; [state_simpl; eassumption|] ]
  | |- _ => wp_read
  end.

(** X15.  A complete publish body of fewer than five bytes, or one whose
    compression byte is 1 and that [zlib.decompress] rejects, is taken off
    the socket and dropped: the turn of the reader ends normally, the
    exception ([struct.error] or [zlib.error]) is logged, the receive state
    of the session is reset, and nothing is put on the callback queue (so
    nothing will acknowledge the block). *)
Theorem undecodable_body_is_dropped
    (zlib_decompress : list byte -> option (list byte))
    (st : state) (fd : Z) (sid h : nat) (s : PushSession) (so : socket_obj)
    (acc seg : list byte) (rest : list recv_event) :
  let body := acc ++ seg in
  dict_get fd (sessions st) = Some sid ->
  objs st !! sid = Some s ->
  socket s = Some h ->
  data s = Some acc ->
  socks st !! h = Some so ->
  is_closed so = false ->
  inbox so = Segment seg :: rest ->
  seg <> [] ->
  Z.of_nat (length body) = message_length s ->
  ((length body < 5)%nat \/
   (be_value (slice 4 5 body) = 1 /\ zlib_decompress (drop 10 body) = None)) ->
  let run := PushClient.select_pass zlib_decompress [fd] st in
  fst run = Ok tt /\
  pool (snd run) = pool st /\
  objs (snd run) !! sid = Some (with_message_length 0 (with_data (Some []) s)) /\
  socks (snd run) !! h = Some (with_inbox rest so) /\
  exists e, last (trace (snd run)) = Some (EvLog (LogException e)) /\
            (e = StructError \/ e = ZlibError).
Proof.
  intros body Hfd Hs Hsock Hdata Hso Hclosed Hinbox Hseg Hlen Hbad run.
  change (wp (PushClient.select_pass zlib_decompress [fd]) st
            (fun r st' =>
               r = Ok tt /\
               pool st' = pool st /\
               objs st' !! sid = Some (with_message_length 0 (with_data (Some []) s)) /\
               socks st' !! h = Some (with_inbox rest so) /\
               exists e, last (trace st') = Some (EvLog (LogException e)) /\
                         (e = StructError \/ e = ZlibError))).
  subst body.
  destruct st as [ss os ses pl wq un pw nt tr].
  destruct s as [cb mid sec sock dat ml].
  destruct so as [scr wr cl md ib ob].
  cbn [objs socks socket data message_length is_closed inbox mode sessions pool] in *.
  subst sock dat cl ib.
  assert (Hlt : (sid < length os)%nat) by (eapply lookup_lt_Some; eauto).
  assert (Hlth : (h < length ss)%nat) by (eapply lookup_lt_Some; eauto).
  assert (Hpos : (0 < length seg)%nat) by (destruct seg; simpl; [congruence | lia]).
  assert (Hlen' : Z.of_nat (length acc + length seg) = ml)
    by (rewrite <- Hlen, length_app; reflexivity).
  match goal with |- wp _ _ ?P => set (Q := P) end.
  destruct (le_lt_dec 2 (length (acc ++ seg))) as [H2 | H2].
  - assert (Hid : unpack_H (slice 0 2 (acc ++ seg)) =
                  Ok (be_value (slice 0 2 (acc ++ seg)))).
    { unfold unpack_H. rewrite slice_length by lia. reflexivity. }
    destruct (le_lt_dec 5 (length (acc ++ seg))) as [H5 | H5].
    + assert (Hcomp : unpack_B (slice 4 5 (acc ++ seg)) =
                      Ok (be_value (slice 4 5 (acc ++ seg)))).
      { unfold unpack_B. rewrite slice_length by lia. reflexivity. }
      destruct Hbad as [Hbad | [Hone Hz]]; [lia|].
      rewrite Hone in Hcomp.
      repeat wp_drop.
      subst Q. state_simpl.
      split; [reflexivity|]. split; [reflexivity|].
      split; [apply list_lookup_insert_eq; assumption|].
      split; [apply list_lookup_insert_eq; assumption|].
      exists ZlibError. rewrite last_snoc. auto.
    + assert (Hcomp : unpack_B (slice 4 5 (acc ++ seg)) = Raise StructError).
      { unfold unpack_B, slice. rewrite length_take, length_drop.
        destruct (Nat.eqb_spec (Init.Nat.min (5 - 4) (length (acc ++ seg) - 4)) 1);
          [lia | reflexivity]. }
      repeat wp_drop.
      subst Q. state_simpl.
      split; [reflexivity|]. split; [reflexivity|].
      split; [apply list_lookup_insert_eq; assumption|].
      split; [apply list_lookup_insert_eq; assumption|].
      exists StructError. rewrite last_snoc. auto.
  - assert (Hid : unpack_H (slice 0 2 (acc ++ seg)) = Raise StructError).
    { unfold unpack_H, slice. rewrite length_take, length_drop.
      destruct (Nat.eqb_spec (Init.Nat.min (2 - 0) (length (acc ++ seg) - 0)) 2);
        [lia | reflexivity]. }
    repeat wp_drop.
    subst Q. state_simpl.
    split; [reflexivity|]. split; [reflexivity|].
    split; [apply list_lookup_insert_eq; assumption|].
    split; [apply list_lookup_insert_eq; assumption|].
    exists StructError. rewrite last_snoc. auto.
Qed.

(** A publish message whose body has three bytes. *)
Lemma undecodable_body_is_dropped_witness :
  let st := snd (_read_msg_header 0
                   (connected accept_all
                      [Segment [x00; x03; x00; x00; x00; x03];
                       Segment [x00; x2a; x00]])) in
  items (pool_queue (pool (snd (PushClient.select_pass no_zlib [5] st)))) = [].
Proof.
  intros st.
  destruct (undecodable_body_is_dropped no_zlib st 5 0 0 _ _ [] [x00; x2a; x00] []
              eq_refl eq_refl eq_refl eq_refl eq_refl eq_refl eq_refl
              ltac:(discriminate) eq_refl ltac:(left; simpl; lia))
    as (_ & Hpool & _).
  rewrite Hpool. reflexivity.
Defined.

(** X16.  Back-pressure.  When the callback queue is full, the turn of
    the reader that completes a well-formed body does not return: it is
    held in [queue_callback], after the body has been taken off the socket
    and the receive state reset, and the ready sockets after this one are
    not served in that turn. *)
Theorem reader_blocks_on_full_queue
    (zlib_decompress : list byte -> option (list byte))
    (st : state) (fd : Z) (others : list Z) (sid h : nat) (s : PushSession)
    (so : socket_obj) (acc seg payload : list byte) (rest : list recv_event) :
  let body := acc ++ seg in
  dict_get fd (sessions st) = Some sid ->
  objs st !! sid = Some s ->
  socket s = Some h ->
  data s = Some acc ->
  socks st !! h = Some so ->
  is_closed so = false ->
  inbox so = Segment seg :: rest ->
  seg <> [] ->
  Z.of_nat (length body) = message_length s ->
  (5 <= length body)%nat ->
  (if be_value (slice 4 5 body) =? 1
   then zlib_decompress (drop 10 body)
   else Some (drop 10 body)) = Some payload ->
  Queue_full (pool_queue (pool st)) = true ->
  let run := PushClient.select_pass zlib_decompress (fd :: others) st in
  fst run = Blocked /\
  pool (snd run) = pool st /\
  objs (snd run) !! sid = Some (with_message_length 0 (with_data (Some []) s)) /\
  socks (snd run) = <[h := with_inbox rest so]> (socks st).
Proof.
  intros body Hfd Hs Hsock Hdata Hso Hclosed Hinbox Hseg Hlen Hfive Hz Hfull run.
  change (wp (PushClient.select_pass zlib_decompress (fd :: others)) st
            (fun r st' =>
               r = Blocked /\
               pool st' = pool st /\
               objs st' !! sid = Some (with_message_length 0 (with_data (Some []) s)) /\
               socks st' = <[h := with_inbox rest so]> (socks st))).
  subst body.
  destruct st as [ss os ses pl wq un pw nt tr].
  destruct s as [cb mid sec sock dat ml].
  destruct so as [scr wr cl md ib ob].
  cbn [objs socks socket data message_length is_closed inbox mode sessions pool] in *.
  subst sock dat cl ib.
  assert (Hlt : (sid < length os)%nat) by (eapply lookup_lt_Some; eauto).
  assert (Hpos : (0 < length seg)%nat) by (destruct seg; simpl; [congruence | lia]).
  assert (Hlen' : Z.of_nat (length acc + length seg) = ml)
    by (rewrite <- Hlen, length_app; reflexivity).
  assert (Hid : unpack_H (slice 0 2 (acc ++ seg)) =
                Ok (be_value (slice 0 2 (acc ++ seg)))).
  { unfold unpack_H. rewrite slice_length by lia. reflexivity. }
  assert (Hcomp : unpack_B (slice 4 5 (acc ++ seg)) =
                  Ok (be_value (slice 4 5 (acc ++ seg)))).
  { unfold unpack_B. rewrite slice_length by lia. reflexivity. }
  match goal with |- wp _ _ ?P => set (Q := P) end.
  destruct (be_value (slice 4 5 (acc ++ seg)) =? 1) eqn:Ecomp.
  all: repeat wp_drop.
  all: subst Q; state_simpl.
  all: split; [reflexivity|]; split; [reflexivity|].
  all: split; [apply list_lookup_insert_eq; assumption | reflexivity].
Qed.

(** The one-worker pool already holds a block when the body of block 42
    arrives. *)
Lemma reader_blocks_on_full_queue_witness :
  let st := snd ((_read_msg_header 0 ;;; CallbackWorkerPool.queue_callback 0 41 [])
                   (connected accept_all
                      [Segment [x00; x03; x00; x00; x00; x0c];
                       Segment [x00; x2a; x00; x00; x00; x00; x00; x00; x00; x00;
                                x68; x69]])) in
  fst (PushClient.select_pass no_zlib [5] st) = Blocked.
Proof.
  intros st.
  destruct (reader_blocks_on_full_queue no_zlib st 5 [] 0 0 _ _ []
              [x00; x2a; x00; x00; x00; x00; x00; x00; x00; x00; x68; x69] [x68; x69] []
              eq_refl eq_refl eq_refl eq_refl eq_refl eq_refl eq_refl
              ltac:(discriminate) eq_refl ltac:(simpl; lia) eq_refl eq_refl)
    as (H & _).
  exact H.
Defined.

(** ** Leaving the reader loop *)

(** One [stop]: the session loses its socket, that socket is closed, and
    nothing else moves. *)
Lemma stop_step (st : state) (sid : nat) (s : PushSession) :
  objs st !! sid = Some s ->
  (forall h, socket s = Some h -> is_Some (socks st !! h)) ->
  exists st',
    PushSession.stop sid st = (Ok tt, st') /\
    sessions st' = sessions st /\
    (exists s', objs st' !! sid = Some s' /\ socket s' = None) /\
    (forall sid', sid' <> sid -> objs st' !! sid' = objs st !! sid') /\
    (forall h, is_Some (socks st !! h) -> is_Some (socks st' !! h)) /\
    (forall h so, socks st !! h = Some so -> is_closed so = true ->
       exists so', socks st' !! h = Some so' /\ is_closed so' = true) /\
    (forall h, socket s = Some h ->
       exists so', socks st' !! h = Some so' /\ is_closed so' = true).
Proof.
  intros Hs Hin.
  destruct (socket s) as [h|] eqn:Hsock.
  - destruct (Hin h eq_refl) as [so Hso].
    eexists. split; [exact (stop_run st sid h s so Hs Hsock Hso)|].
    assert (Hlt : (sid < length (objs st))%nat) by (eapply lookup_lt_Some; eauto).
    assert (Hlh : (h < length (socks st))%nat) by (eapply lookup_lt_Some; eauto).
    destruct st as [ss os ses pl wq un pw nt tr]. cbn in *.
    repeat split.
    + eexists. split; [apply list_lookup_insert_eq; exact Hlt | reflexivity].
    + intros sid' Hne. apply list_lookup_insert_ne. congruence.
    + intros h' [so' Hso']. destruct (decide (h' = h)) as [->|Hne].
      * rewrite list_lookup_insert_eq by exact Hlh. eauto.
      * rewrite list_lookup_insert_ne by congruence. eauto.
    + intros h' so' Hso' Hc. destruct (decide (h' = h)) as [->|Hne].
      * rewrite list_lookup_insert_eq by exact Hlh. eexists. split; reflexivity.
      * rewrite list_lookup_insert_ne by congruence. eauto.
    + intros h' [= <-]. rewrite list_lookup_insert_eq by exact Hlh.
      eexists. split; reflexivity.
  - exists st. unfold PushSession.stop, bind, get_session. rewrite Hs, Hsock.
    repeat split; eauto; try discriminate.
Qed.

(** The [finally] of [__select]: [stop] on each session of a list. *)
Lemma stop_each_run (l : list nat) : forall st : state,
  (forall sid, In sid l ->
     exists s, objs st !! sid = Some s /\
               forall h, socket s = Some h -> is_Some (socks st !! h)) ->
  exists st',
    for_each l PushSession.stop st = (Ok tt, st') /\
    sessions st' = sessions st /\
    (forall sid, In sid l -> exists s', objs st' !! sid = Some s' /\ socket s' = None) /\
    (forall sid s, objs st !! sid = Some s -> socket s = None ->
       exists s', objs st' !! sid = Some s' /\ socket s' = None) /\
    (forall sid, ~ In sid l -> objs st' !! sid = objs st !! sid) /\
    (forall h, is_Some (socks st !! h) -> is_Some (socks st' !! h)) /\
    (forall h so, socks st !! h = Some so -> is_closed so = true ->
       exists so', socks st' !! h = Some so' /\ is_closed so' = true) /\
    (forall sid s h, In sid l -> objs st !! sid = Some s -> socket s = Some h ->
       exists so', socks st' !! h = Some so' /\ is_closed so' = true).
Proof.
  induction l as [|sid l IH]; intros st Hwf.
  - exists st. cbn. repeat split; eauto; intros; try contradiction.
  - destruct (Hwf sid (or_introl eq_refl)) as (s & Hs & Hin).
    destruct (stop_step st sid s Hs Hin)
      as (st1 & Hrun & Hses & (s1 & Hs1 & Hnone1) & Hoth & Hrange & Hmono & Hclosed).
    assert (Hwf1 : forall sid', In sid' l ->
              exists s', objs st1 !! sid' = Some s' /\
                         forall h, socket s' = Some h -> is_Some (socks st1 !! h)).
    { intros sid' Hin'. destruct (decide (sid' = sid)) as [->|Hne].
      - exists s1. split; [exact Hs1|]. rewrite Hnone1. discriminate.
      - destruct (Hwf sid' (or_intror Hin')) as (s' & Hs' & Hr').
        exists s'. rewrite (Hoth sid' Hne). split; [exact Hs'|].
        intros h Hh. apply Hrange, Hr', Hh. }
    destruct (IH st1 Hwf1)
      as (st2 & Hrun2 & Hses2 & Hdone & Hkeep & Hout & Hrange2 & Hmono2 & Hclosed2).
    exists st2.
    assert (Hnone : forall sid' s', objs st !! sid' = Some s' -> socket s' = None ->
              exists s'', objs st2 !! sid' = Some s'' /\ socket s'' = None).
    { intros sid' s' Hs' Hn'. destruct (decide (sid' = sid)) as [->|Hne].
      - exact (Hkeep sid s1 Hs1 Hnone1).
      - apply (Hkeep sid' s'); [rewrite (Hoth sid' Hne); exact Hs' | exact Hn']. }
    split.
    { cbn [for_each]. unfold bind. rewrite Hrun. exact Hrun2. }
    split; [congruence|].
    split.
    { intros sid' [<-|Hin']; [exact (Hkeep sid s1 Hs1 Hnone1) | exact (Hdone sid' Hin')]. }
    split; [exact Hnone|].
    split.
    { intros sid' Hnin. rewrite Hout by (intros ?; apply Hnin; right; assumption).
      apply Hoth. intros ->. apply Hnin. left. reflexivity. }
    split; [intros h Hh; apply Hrange2, Hrange, Hh|].
    split.
    { intros h so Hso Hc. destruct (Hmono h so Hso Hc) as (so1 & Hso1 & Hc1).
      exact (Hmono2 h so1 Hso1 Hc1). }
    intros sid' s' h Hin' Hs' Hh.
    destruct (decide (sid' = sid)) as [->|Hne].
    + assert (s' = s) by congruence. subst s'.
      destruct (Hclosed h Hh) as (so1 & Hso1 & Hc1).
      exact (Hmono2 h so1 Hso1 Hc1).
    + destruct Hin' as [->|Hin']; [congruence|].
      apply (Hclosed2 sid' s' h Hin'); [rewrite (Hoth sid' Hne); exact Hs' | exact Hh].
Qed.

(** X17.  When the reader loop of [__select] ends, by [self.closed] or by an
    exception that escapes it, and every session of the dictionary is an
    object whose socket, if any, exists, then [__select] ends the same way,
    the dictionary is as the loop left it, every session in it is without a
    socket, and every socket such a session had is closed. *)
Theorem select_stops_every_session
    (zlib_decompress : list byte -> option (list byte))
    (rounds : list (list Z)) (st st1 : state) (r : result unit) :
  PushClient.select_rounds zlib_decompress rounds st = (r, st1) ->
  r <> Blocked ->
  r <> Fault ->
  (forall fd sid, In (fd, sid) (sessions st1) ->
     exists s, objs st1 !! sid = Some s /\
               forall h, socket s = Some h -> is_Some (socks st1 !! h)) ->
  let run := PushClient.__select zlib_decompress rounds st in
  fst run = r /\
  sessions (snd run) = sessions st1 /\
  (forall fd sid, In (fd, sid) (sessions st1) ->
     exists s, objs (snd run) !! sid = Some s /\ socket s = None) /\
  (forall fd sid s h, In (fd, sid) (sessions st1) ->
     objs st1 !! sid = Some s -> socket s = Some h ->
     exists so, socks (snd run) !! h = Some so /\ is_closed so = true).
Proof.
  intros Hloop Hb Hf Hwf run.
  assert (Hwf' : forall sid, In sid (map snd (sessions st1)) ->
            exists s, objs st1 !! sid = Some s /\
                      forall h, socket s = Some h -> is_Some (socks st1 !! h)).
  { intros sid Hin. apply in_map_iff in Hin as ([fd sid'] & <- & Hin).
    exact (Hwf fd sid' Hin). }
  destruct (stop_each_run _ st1 Hwf')
    as (st2 & Hrun & Hses & Hdone & _ & _ & _ & _ & Hclosed).
  assert (E : run = (r, st2)).
  { subst run. unfold PushClient.__select, try_finally. rewrite Hloop.
    unfold bind, gets. cbn [fst snd]. rewrite Hrun.
    destruct r; try reflexivity; congruence. }
  rewrite E. cbn [fst snd].
  split; [reflexivity|]. split; [exact Hses|]. split.
  - intros fd sid Hin. apply Hdone. apply in_map_iff. exists (fd, sid). auto.
  - intros fd sid s h Hin. apply Hclosed. apply in_map_iff. exists (fd, sid). auto.
Qed.

(** The loop reads the handshake-free header of a block and is then closed:
    the one session of the client is stopped. *)
Lemma select_stops_every_session_witness :
  let st := connected accept_all [Segment [x00; x03; x00; x00; x00; x0c]] in
  exists s, objs (snd (PushClient.__select no_zlib [[5]] st)) !! 0%nat = Some s /\
            socket s = None.
Proof.
  intros st.
  destruct (select_stops_every_session no_zlib [[5]] st _ _ eq_refl
              ltac:(discriminate) ltac:(discriminate)) as (_ & _ & H & _).
  - intros fd sid [[= <- <-]|[]]. eexists. split; [reflexivity|].
    intros h [= <-]. eexists. reflexivity.
  - exact (H 5 0%nat (or_introl eq_refl)).
Defined.

(** ** A block from the socket to its acknowledgement *)

Section Acknowledgement.

Variable zlib_decompress : list byte -> option (list byte).
Variables (fd : Z) (sid h : nat).

(** The turns of the reader over the segments of a body only consume the
    inbox of the socket. *)
Lemma select_rounds_body_socket (segs : list (list byte)) :
  forall (st : state) (s : PushSession) (so : socket_obj)
         (acc payload : list byte) (later : list recv_event),
    segs <> [] ->
    dict_get fd (sessions st) = Some sid ->
    objs st !! sid = Some s ->
    socket s = Some h ->
    data s = Some acc ->
    socks st !! h = Some so ->
    is_closed so = false ->
    inbox so = map Segment segs ++ later ->
    Forall (fun seg => seg <> []) segs ->
    Z.of_nat (length (acc ++ concat segs)) = message_length s ->
    (10 <= length (acc ++ concat segs))%nat ->
    Queue_full (pool_queue (pool st)) = false ->
    (if be_value (slice 4 5 (acc ++ concat segs)) =? 1
     then zlib_decompress (drop 10 (acc ++ concat segs))
     else Some (drop 10 (acc ++ concat segs))) = Some payload ->
    wp (PushClient.select_rounds zlib_decompress (repeat [fd] (length segs))) st
      (fun r st' =>
         r = Ok tt /\
         items (pool_queue (pool st')) =
           items (pool_queue (pool st)) ++
           [(sid, be_value (slice 0 2 (acc ++ concat segs)), payload)] /\
         objs st' !! sid = Some (with_message_length 0 (with_data (Some []) s)) /\
         socks st' !! h = Some (with_inbox later so)).
Proof.
  induction segs as [|seg segs IH]; [congruence|].
  intros st s so acc payload later _ Hfd Hs Hsock Hdata Hso Hclosed Hinbox Hne
    Hlen Hten Hfull Hz.
  assert (Hlt : (sid < length (objs st))%nat) by (eapply lookup_lt_Some; eauto).
  assert (Hlth : (h < length (socks st))%nat) by (eapply lookup_lt_Some; eauto).
  inversion Hne as [|? ? Hseg Hne']; subst.
  cbn [length repeat PushClient.select_rounds concat map app] in *.
  destruct segs as [|seg2 segs].
  - cbn [length repeat PushClient.select_rounds concat map app] in *.
    rewrite app_nil_r in *.
    apply wp_bind.
    eapply wp_consequence.
    { eapply (select_pass_complete zlib_decompress fd sid h st s so acc seg payload later);
        eauto.
      rewrite length_app in Hlen. rewrite <- Hlen. lia. }
    intros r st' (-> & Hitems & Hobjs & Hsocks).
    apply wp_ret. auto.
  - apply wp_bind. unfold wp at 1.
    rewrite (select_pass_partial zlib_decompress fd sid h st s so acc seg
               (map Segment (seg2 :: segs) ++ later)); eauto.
    2:{ rewrite <- Hlen. rewrite !length_app. cbn [concat]. rewrite length_app.
        inversion Hne' as [|? ? Hseg2 _]; subst.
        destruct seg2; [congruence|]. simpl. lia. }
    cbn [fst snd].
    eapply wp_consequence.
    { eapply (IH _ (with_data (Some (acc ++ seg)) s)
                (with_inbox (map Segment (seg2 :: segs) ++ later) so)
                (acc ++ seg) payload later); try assumption.
      - congruence.
      - cbn. apply list_lookup_insert_eq; assumption.
      - reflexivity.
      - cbn. apply list_lookup_insert_eq; assumption.
      - reflexivity.
      - rewrite <- app_assoc. exact Hlen.
      - rewrite <- app_assoc. exact Hten.
      - rewrite <- app_assoc. exact Hz. }
    intros r st' (-> & Hitems & Hobjs & Hsocks).
    split; [reflexivity|]. rewrite <- app_assoc in Hitems.
    split; [exact Hitems|]. split; [exact Hobjs | exact Hsocks].
Qed.

(** A turn of a worker whose callback accepts the block: the
    acknowledgement goes on the write queue, addressed to the socket of the
    session, and nothing else moves. *)
Lemma consume_queue_ack_run (st : state) (B : Z) (payload : list byte)
    (rest : list (nat * Z * list byte)) (s : PushSession) :
  items (pool_queue (pool st)) = (sid, B, payload) :: rest ->
  objs st !! sid = Some s ->
  pool_write_queue (pool st) = true ->
  maxsize (write_queue st) <= 0 ->
  0 <= B < 2 ^ 16 ->
  callback s payload = Returns true ->
  exists st',
    CallbackWorkerPool.__consume_queue st = (Ok tt, st') /\
    items (pool_queue (pool st')) = rest /\
    items (write_queue st') = items (write_queue st) ++ [(socket s, ack_message B)] /\
    maxsize (write_queue st') = maxsize (write_queue st) /\
    socks st' = socks st /\ objs st' = objs st /\ sessions st' = sessions st.
Proof.
  destruct st as [ss os ses [pwq pq psz] wq un pw nt tr]; cbn.
  intros Hq Hs Hw Hm HB Hcb.
  unfold CallbackWorkerPool.__consume_queue, CallbackWorkerPool.queue_get,
    CallbackWorkerPool.call_callback, CallbackWorkerPool.write_queue_put,
    bind, try_except, get_session, modify, gets, when, lift, ret, raise, Queue_get.
  cbn. rewrite Hq. cbn. rewrite Hs. cbn. rewrite Hcb. cbn.
  subst pwq. cbn. rewrite (response_message_ok B HB).
  cbn. rewrite Hs. cbn. rewrite Queue_put_unbounded by assumption. cbn.
  eexists. split; [reflexivity|]. cbn. auto 10.
Qed.

(** X18.  A block is acknowledged on the socket it came from.  When the
    body of a publish message arrives in any number of non-empty segments,
    the callback of the session accepts its payload and the socket accepts
    the send, then the turns of the reader over the segments, one turn of a
    worker and one turn of the writer leave exactly one more message in the
    outbox of that socket: the type 4, the two bytes of the block id as
    they were received, and the status 200.  Both queues are empty again. *)
Theorem pushed_block_is_acknowledged (segs : list (list byte))
    (st : state) (s : PushSession) (so : socket_obj)
    (acc payload : list byte) (later : list recv_event) :
  segs <> [] ->
  dict_get fd (sessions st) = Some sid ->
  objs st !! sid = Some s ->
  socket s = Some h ->
  data s = Some acc ->
  socks st !! h = Some so ->
  is_closed so = false ->
  inbox so = map Segment segs ++ later ->
  Forall (fun seg => seg <> []) segs ->
  Z.of_nat (length (acc ++ concat segs)) = message_length s ->
  (10 <= length (acc ++ concat segs))%nat ->
  (if be_value (slice 4 5 (acc ++ concat segs)) =? 1
   then zlib_decompress (drop 10 (acc ++ concat segs))
   else Some (drop 10 (acc ++ concat segs))) = Some payload ->
  items (pool_queue (pool st)) = [] ->
  pool_write_queue (pool st) = true ->
  items (write_queue st) = [] ->
  maxsize (write_queue st) <= 0 ->
  callback s payload = Returns true ->
  cs_send_ok (script so) = true ->
  let run :=
    (PushClient.select_rounds zlib_decompress (repeat [fd] (length segs)) ;;;
     CallbackWorkerPool.__consume_queue ;;;
     PushClient.writer_turn) st in
  fst run = Ok tt /\
  socks (snd run) !! h =
    Some (with_outbox
            (outbox so ++ [[x00; x04] ++ slice 0 2 (acc ++ concat segs) ++ [x00; xc8]])
            (with_inbox later so)) /\
  items (write_queue (snd run)) = [] /\
  items (pool_queue (pool (snd run))) = [].
Proof.
  intros Hsegs Hfd Hs Hsock Hdata Hso Hclosed Hinbox Hne Hlen Hten Hz
    Hpq Hpw Hwq Hmax Hcb Hsend run.
  set (body := acc ++ concat segs) in *.
  assert (Hfull : Queue_full (pool_queue (pool st)) = false).
  { unfold Queue_full. rewrite Hpq. cbn [length].
    destruct (Z.ltb_spec 0 (maxsize (pool_queue (pool st)))); [|reflexivity].
    destruct (Z.leb_spec (maxsize (pool_queue (pool st))) (Z.of_nat 0)); [lia|reflexivity]. }
  pose proof (select_rounds_body_socket segs st s so acc payload later
                Hsegs Hfd Hs Hsock Hdata Hso Hclosed Hinbox Hne Hlen Hten Hfull Hz)
    as Hread.
  unfold wp in Hread.
  assert (Hkwq : write_queue
            (snd (PushClient.select_rounds zlib_decompress (repeat [fd] (length segs)) st)) =
          write_queue st).
  { apply (keeps_select_rounds write_queue); try reflexivity.
    apply queue_callback_keeps_write_queue. }
  assert (Hkpw : pool_write_queue (pool
            (snd (PushClient.select_rounds zlib_decompress (repeat [fd] (length segs)) st))) =
          pool_write_queue (pool st)).
  { apply (keeps_select_rounds (fun st => pool_write_queue (pool st))); try reflexivity.
    apply queue_callback_keeps_pool_write_queue. }
  assert (E : exists st3,
            run = (Ok tt, st3) /\
            socks st3 !! h =
              Some (with_outbox
                      (outbox so ++ [[x00; x04] ++ slice 0 2 body ++ [x00; xc8]])
                      (with_inbox later so)) /\
            items (write_queue st3) = [] /\
            items (pool_queue (pool st3)) = []).
  { subst run. unfold bind.
    destruct (PushClient.select_rounds zlib_decompress (repeat [fd] (length segs)) st)
      as [r1 st1].
    cbn [fst snd] in *.
    destruct Hread as (-> & Hitems1 & Hobjs1 & Hsocks1).
    rewrite Hpq in Hitems1. cbn [app] in Hitems1.
    assert (HB : 0 <= be_value (slice 0 2 body) < 2 ^ 16).
    { pose proof (be_value_range (slice 0 2 body)) as Hr.
      rewrite slice_length in Hr by lia. exact Hr. }
    destruct (consume_queue_ack_run st1 (be_value (slice 0 2 body)) payload []
                (with_message_length 0 (with_data (Some []) s)))
      as (st2 & Hrun2 & Hpq2 & Hwq2 & Hmax2 & Hsocks2 & _ & _).
    { exact Hitems1. } { exact Hobjs1. } { rewrite Hkpw. exact Hpw. }
    { rewrite Hkwq. exact Hmax. } { exact HB. } { exact Hcb. }
    rewrite Hrun2.
    rewrite Hkwq, Hwq in Hwq2. cbn [app socket with_message_length with_data] in Hwq2.
    rewrite Hsock in Hwq2.
    assert (Hso2 : socks st2 !! h = Some (with_inbox later so))
      by (rewrite Hsocks2; exact Hsocks1).
    rewrite (writer_turn_send_run st2 h _ [] _ Hwq2 Hso2 Hclosed Hsend).
    assert (Hlth : (h < length (socks st2))%nat) by (eapply lookup_lt_Some; eauto).
    eexists. split; [reflexivity|].
    destruct st2 as [ss os ses pl wq un pw nt tr].
    cbn [socks] in Hlth. cbn [pool] in Hpq2.
    cbn [socks set_socks emit set_write_queue write_queue items pool].
    split; [|split; [reflexivity | exact Hpq2]].
    rewrite list_lookup_insert_eq by exact Hlth.
    unfold ack_message.
    replace (be_bytes 2 (be_value (slice 0 2 body))) with (slice 0 2 body).
    - reflexivity.
    - rewrite <- (be_bytes_be_value (slice 0 2 body)) at 1.
      rewrite slice_length by lia. reflexivity. }
  destruct E as (st3 & -> & H1 & H2 & H3). cbn [fst snd]. auto.
Qed.

End Acknowledgement.

(** Block 42 with payload [hi] arrives in segments of 5 and 7 bytes and the
    callback returns true. *)
Lemma pushed_block_is_acknowledged_witness :
  let st := snd (_read_msg_header 0
                   (connected accept_all
                      [Segment [x00; x03; x00; x00; x00; x0c];
                       Segment [x00; x2a; x00; x00; x00];
                       Segment [x00; x00; x00; x00; x00; x68; x69]])) in
  exists so,
    socks (snd ((PushClient.select_rounds no_zlib [[5]; [5]] ;;;
                 CallbackWorkerPool.__consume_queue ;;;
                 PushClient.writer_turn) st)) !! 0%nat = Some so /\
    last (outbox so) = Some [x00; x04; x00; x2a; x00; xc8].
Proof.
  intros st.
  destruct (pushed_block_is_acknowledged no_zlib 5 0 0
              [[x00; x2a; x00; x00; x00]; [x00; x00; x00; x00; x00; x68; x69]]
              st _ _ [] [x68; x69] []
              ltac:(discriminate) eq_refl eq_refl eq_refl eq_refl eq_refl eq_refl
              eq_refl ltac:(repeat constructor; discriminate) eq_refl
              ltac:(simpl; lia) eq_refl eq_refl eq_refl eq_refl
              ltac:(simpl; lia) eq_refl eq_refl)
    as (_ & H & _).
  eexists. split; [exact H|]. reflexivity.
Defined.

(** ** A session without a buffer *)

(** X19.  The reader cannot read for a session whose [data] is [None], which
    is how [stop] and therefore [__restart_session] leave it.  A turn of
    the reader that finds such a session ready, with a socket, raises
    [TypeError] at [len(session.data)] before anything is received, in
    [_read_msg_header] as in [_read_msg]; the turn logs the exception and
    ends, the sockets that were ready after it are not served, and nothing
    else changes: no byte leaves the socket and nothing is dispatched. *)
Theorem reader_fails_without_buffer
    (zlib_decompress : list byte -> option (list byte))
    (st : state) (fd : Z) (others : list Z) (sid h : nat) (s : PushSession) :
  dict_get fd (sessions st) = Some sid ->
  objs st !! sid = Some s ->
  socket s = Some h ->
  data s = None ->
  PushClient.select_pass zlib_decompress (fd :: others) st =
  (Ok tt, emit (EvLog (LogException TypeError)) st).
Proof.
  intros Hfd Hs Hsock Hdata.
  unfold PushClient.select_pass, try_except. cbn [for_each].
  unfold bind at 1.
  assert (E : PushClient.select_body zlib_decompress fd st = (Raise TypeError, st)).
  { unfold PushClient.select_body, bind at 1, sessions_getitem. rewrite Hfd.
    unfold bind at 1, get_session. rewrite Hs, Hsock.
    destruct (message_length s =? 0) eqn:Eml.
    - unfold bind at 1. unfold bind at 1.
      unfold _read_msg_header, bind at 1, try_except, bind at 1, get_session.
      rewrite Hs, Hsock, Hdata. reflexivity.
    - unfold bind at 1. unfold ret at 1. cbn [negb].
      unfold bind at 1, try_except, _read_msg, bind at 1, get_session.
      rewrite Hs, Hdata. reflexivity. }
  rewrite E. reflexivity.
Qed.

(** The peer of the session closes, the reader restarts the session on a
    new connection with file number 6, and the next turn finds data on
    it. *)
Lemma reader_fails_without_buffer_witness :
  let st := snd (PushClient.select_pass no_zlib [5] reconnectable) in
  PushClient.select_pass no_zlib [6] st =
  (Ok tt, emit (EvLog (LogException TypeError)) st).
Proof.
  intros st.
  exact (reader_fails_without_buffer no_zlib st 6 [] 0 1 _
           eq_refl eq_refl eq_refl eq_refl).
Defined.

(** ** What ends a thread *)

(** The loop of [__clean_dead_sessions] over keys of the dictionary raises
    nothing but the [RuntimeError] of the dictionary iterator. *)
Lemma clean_keys_raise (used : nat) (keys : list Z) : forall (st : state) (e : exn),
  (forall k, In k keys -> is_Some (dict_get k (sessions st))) ->
  fst (PushClient.for_keys used keys
         (fun sck =>
            let! session := sessions_getitem sck in
            let! s := get_session session in
            when (bool_decide (socket s = None)) (sessions_delitem sck)) st) = Raise e ->
  e = RuntimeError.
Proof.
  induction keys as [|k keys IH]; intros st e Hkeys;
    cbn [PushClient.for_keys]; unfold bind at 1, gets;
    destruct (length (sessions st) =? used)%nat eqn:Esz; cbn [negb];
    try (intros [= <-]; reflexivity); try discriminate.
  apply Nat.eqb_eq in Esz.
  destruct (Hkeys k (or_introl eq_refl)) as [sid Hget].
  unfold bind at 1. unfold bind at 1, sessions_getitem. rewrite Hget.
  unfold bind at 1, get_session.
  destruct (objs st !! sid) as [s|]; [|discriminate].
  unfold when. destruct (bool_decide (socket s = None)).
  - destruct (dict_del_of_get k sid (sessions st) Hget) as (d' & Hdel & Hlen).
    unfold sessions_delitem. rewrite Hdel.
    rewrite for_keys_size_changed.
    + intros [= <-]. reflexivity.
    + destruct st; cbn in *. lia.
  - unfold ret at 1. apply IH. intros k' Hk'. apply Hkeys. right. exact Hk'.
Qed.

Lemma clean_dead_sessions_raise (st : state) (e : exn) :
  fst (PushClient.__clean_dead_sessions st) = Raise e -> e = RuntimeError.
Proof.
  unfold PushClient.__clean_dead_sessions, bind at 1, gets.
  apply clean_keys_raise.
  intros k Hk. apply in_map_iff in Hk as ([k' sid] & <- & Hin).
  destruct (dict_get_In k' sid (sessions st) Hin) as (v & Hget & _).
  exists v. exact Hget.
Qed.

(** X20.  The only exception that leaves a turn of the reader is the
    [RuntimeError] that [__clean_dead_sessions] raises: every exception of
    the receive, of the parsing, of a restart or of the decompression is
    caught by the turn, in every state and for every set of ready sockets.
    So nothing but that error in the handler of a bad file descriptor ends
    the loop of [__select] before [self.closed] is set. *)
Theorem reader_turn_raises_only_RuntimeError
    (zlib_decompress : list byte -> option (list byte))
    (inputready : list Z) (st : state) (e : exn) :
  fst (PushClient.select_pass zlib_decompress inputready st) = Raise e ->
  e = RuntimeError.
Proof.
  unfold PushClient.select_pass, try_except.
  destruct (for_each inputready (PushClient.select_body zlib_decompress) st)
    as [[[]|e0| |] st1]; try discriminate.
  destruct e0; try discriminate.
  unfold when. destruct (errno =? EBADF); [|discriminate].
  apply clean_dead_sessions_raise.
Qed.

(** The receive on file number 5 fails with a bad file descriptor while the
    session on file number 6 has been stopped. *)
Lemma reader_turn_raises_only_RuntimeError_witness :
  let st :=
    snd ((PushClient.create_session false None accept_all 9001 ;;;
          PushClient.create_session false None accept_all 9002 ;;;
          PushSession.stop 1)
           (PushClient.__init__ [x75] [x70] 1
              [Some (connection [RecvError EBADF]); Some connection6])) in
  exists e, fst (PushClient.select_pass no_zlib [5] st) = Raise e /\ e = RuntimeError.
Proof.
  intros st. eexists. split; [reflexivity|].
  exact (reader_turn_raises_only_RuntimeError no_zlib [5] st _ eq_refl).
Defined.
